(** * sol-render: the reward payout handler of [app.py]

    A shallow embedding of the Flask application [src/app.py]: the
    in-memory idempotency store [PAID], its sweep [cleanup_paid], the
    start-up sequence that loads the payer key, and the request handler
    [reward_send] of [POST /reward/send].

    Python values that travel through the handler (the parsed JSON body,
    floats, the dictionary [PAID]) are modelled as data; the Solana RPC
    client and the wall clock are an explicit per-request environment, and
    every call made to the RPC client is logged in an event trace.  A
    handler ends by returning a response or by letting an exception
    escape; [jsonify] is part of the handler and can be where it raises. *)

From Stdlib Require Import ZArith Bool Ascii String List.
From Stdlib.Strings Require Import Byte.
From Stdlib Require Import SpecFloat.
From stdpp Require Import gmap strings list fin_maps pretty.

Set Warnings "-register-all".

Local Open Scope string_scope.
Local Open Scope Z_scope.

(** ** Python floats: IEEE 754 binary64

    A Python float is a double: a [spec_float] with 53 bits of precision
    and exponents below 1024, in its canonical form
    ([valid_binary prec emax]).  The operations are those of the standard,
    rounding to nearest, ties to even. *)

Definition prec : Z := 53.
Definition emax : Z := 1024.

Abbreviation float := spec_float.

(** [float(n)] for a Python [int]: correctly rounded, [OverflowError]
    ([None]) when the integer is beyond the largest double. *)
Definition float_of_int (n : Z) : option float :=
  match binary_normalize prec emax n 0 false with
  | S754_infinity _ => None
  | f => Some f
  end.

Definition fzero : float := S754_zero false.
(** 0.5 = 2^52 * 2^-53 *)
Definition fhalf : float := S754_finite false 4503599627370496 (-53).
(** 1.0 = 2^52 * 2^-52, the value of [float(True)]. *)
Definition fone : float := S754_finite false 4503599627370496 (-52).

Definition fle (x y : float) : bool := SFleb x y.
Definition flt (x y : float) : bool := SFltb x y.
Definition fgt (x y : float) : bool := SFltb y x.
Definition fmul (x y : float) : float := SFmul prec emax x y.
Definition fsub (x y : float) : float := SFsub prec emax x y.

(** The exceptions that can leave the handler. *)
Inductive exn :=
| AttributeError
| ValueError
| OverflowError
| TypeError.

(** [int(x)] for a float: truncation toward zero; [ValueError] on NaN and
    [OverflowError] on an infinity.  [py_int] keeps the exception's name. *)
Definition py_int (x : float) : exn + Z :=
  match x with
  | S754_zero _ => inr 0
  | S754_nan => inl ValueError
  | S754_infinity _ => inl OverflowError
  | S754_finite s m e =>
      let a := if 0 <=? e then Z.shiftl (Zpos m) e else Z.shiftr (Zpos m) (- e) in
      inr (if s then - a else a)
  end.

(** The floats on which [int()] raises nothing. *)
Definition is_number (x : float) : bool :=
  match x with
  | S754_zero _ | S754_finite _ _ _ => true
  | S754_infinity _ | S754_nan => false
  end.

(** ** JSON values as Python objects

    [request.get_json] yields Python objects: [None], [bool], [int],
    [float], [str], [list] and [dict]. *)
Inductive json :=
| JNull
| JBool (b : bool)
| JInt (z : Z)
| JFloat (f : float)
| JStr (s : string)
| JList (l : list json)
| JDict (d : gmap string json).

(** Python truthiness ([if x], [not x], [x or y]). *)
Definition truthy (v : json) : bool :=
  match v with
  | JNull => false
  | JBool b => b
  | JInt z => negb (z =? 0)
  | JFloat f => negb (SFeqb f fzero)
  | JStr s => negb (String.eqb s "")
  | JList l => match l with [] => false | _ => true end
  | JDict d => negb (Nat.eqb (size d) 0)
  end.

(** ** The external libraries

    [solders], [base58] and the parts of the Python builtins [float] and
    [str] that are not spelled out below are taken as an interface: the
    handler is verified for every implementation of it.  [None] stands
    for a raised exception. *)
Class Runtime := {
  Pubkey : Type;
  Keypair : Type;
  (** [float(s)] for a [str]; [None] is [ValueError]. *)
  float_of_str : string -> option float;
  (** [str(v)] for [float], [list] and [dict] values. *)
  py_repr : json -> string;
  (** [base58.b58decode]. *)
  b58decode : string -> option (list Byte.byte);
  (** [Keypair.from_bytes] and [Keypair.pubkey]. *)
  Keypair_from_bytes : list Byte.byte -> option Keypair;
  Keypair_pubkey : Keypair -> Pubkey;
  (** [Pubkey.from_string] and [str(pubkey)]. *)
  Pubkey_from_string : string -> option Pubkey;
  Pubkey_str : Pubkey -> string;
}.

(** A block hash travels as its text. *)
Abbreviation Blockhash := string.

(** The [.value] of the reply to [client.send_transaction] is a
    [Signature] object of [solders], not a [str]; [sig_text] is the text
    [str()] would make of it.  The handler stores it and hands it to
    [jsonify] as it is. *)
Record Signature := Sig { sig_text : string }.

(** The idempotency store [PAID]: a dictionary from
    [(receiver, str(idempotency_key))] to [(signature, timestamp)]. *)
Abbreviation store := (gmap (string * string) (Signature * float)).

(** ** [jsonify]

    The values of a dictionary handed to [jsonify] are JSON data or the
    [Signature] object.  Flask's JSON provider serialises [None], [bool],
    [int], [float], [str], [list] and [dict] (and dates, decimals, UUIDs
    and dataclasses, none of which occurs here); for an object of any
    other class its [default] raises [TypeError]. *)
Inductive pyval :=
| PJson (v : json)
| PSignature (s : Signature).

Definition json_default (v : pyval) : exn + json :=
  match v with
  | PJson j => inr j
  | PSignature _ => inl TypeError
  end.

(** Serialising the items of a dictionary, in order. *)
Fixpoint dumps (d : list (string * pyval)) : exn + list (string * json) :=
  match d with
  | [] => inr []
  | (k, v) :: rest =>
      match json_default v with
      | inl e => inl e
      | inr j =>
          match dumps rest with
          | inl e => inl e
          | inr items => inr ((k, j) :: items)
          end
      end
  end.

Record response := {
  status : Z;
  payload : list (string * json);
}.

(** A handler either returns a response or lets an exception escape. *)
Inductive outcome :=
| Returns (r : response)
| Raises (e : exn).

(** [jsonify(d), code]: the response is built when [jsonify] is called,
    so an object it cannot serialise makes the handler raise there. *)
Definition jsonify (code : Z) (d : list (string * pyval)) : outcome :=
  match dumps d with
  | inr items => Returns {| status := code; payload := items |}
  | inl e => Raises e
  end.

Section Handler.
Context `{RT : Runtime}.

(** [str(v)], used on the idempotency key. *)
Definition py_str (v : json) : string :=
  match v with
  | JStr s => s
  | JInt z => pretty z
  | JBool true => "True"
  | JBool false => "False"
  | JNull => "None"
  | _ => py_repr v
  end.

(** [float(v)]; [None] when it raises ([TypeError], [ValueError],
    [OverflowError]), all of which the handler catches alike. *)
Definition py_float (v : json) : option float :=
  match v with
  | JFloat f => Some f
  | JInt z => float_of_int z
  | JBool b => Some (if b then fone else fzero)
  | JStr s => float_of_str s
  | JNull | JList _ | JDict _ => None
  end.

(** ** Module-level constants *)

Definition LAMPORTS_PER_SOL : Z := 1000000000.
Definition PAID_TTL_SEC : Z := 60 * 60 * 24 * 7.

(** An [int] operand of a float operation is converted to a float first;
    both constants above are below 2^53 and convert exactly. *)
Definition float_of_const (n : Z) : float := binary_normalize prec emax n 0 false.

(** [int(amount_sol * LAMPORTS_PER_SOL)] *)
Definition to_lamports (amount_sol : float) : exn + Z :=
  py_int (fmul amount_sol (float_of_const LAMPORTS_PER_SOL)).

(** ** Start-up (module import) *)

Record config := {
  SOLANA_RPC_URL : string;
  REWARD_SOL_DEFAULT : float;
  payer : Keypair;
}.

Definition payer_pubkey (cfg : config) : Pubkey := Keypair_pubkey (payer cfg).

(** Why the import of [app.py] raised. *)
Inductive startup_error :=
| DefaultRewardNotAFloat
| MissingSecret
| SecretNotBase58
| SecretNot64Bytes
| KeypairRejected.

(** [os.getenv(name, dflt)] on the process environment. *)
Definition getenv (environ : gmap string string) (name : string) (dflt : string) : string :=
  default dflt (environ !! name).

Definition startup (environ : gmap string string) : startup_error + config :=
  let url := getenv environ "SOLANA_RPC_URL" "https://api.devnet.solana.com" in
  match float_of_str (getenv environ "REWARD_SOL_DEFAULT" "0.01") with
  | None => inl DefaultRewardNotAFloat
  | Some reward =>
      match environ !! "REWARD_WALLET_SECRET_BASE58" with
      | None => inl MissingSecret
      | Some SECRET_B58 =>
          if String.eqb SECRET_B58 "" then inl MissingSecret
          else
            match b58decode SECRET_B58 with
            | None => inl SecretNotBase58
            | Some secret_bytes =>
                if negb (Nat.eqb (length secret_bytes) 64) then inl SecretNot64Bytes
                else
                  match Keypair_from_bytes secret_bytes with
                  | None => inl KeypairRejected
                  | Some kp =>
                      inr {| SOLANA_RPC_URL := url;
                             REWARD_SOL_DEFAULT := reward;
                             payer := kp |}
                  end
            end
      end
  end.

(** ** Sweeping the idempotency store *)

(** The test [now - ts > PAID_TTL_SEC] of [cleanup_paid]. *)
Definition expired (now ts : float) : bool :=
  fgt (fsub now ts) (float_of_const PAID_TTL_SEC).

(** One iteration of the loop of [cleanup_paid]. *)
Definition sweep_item (now : float) (acc : store)
    (item : (string * string) * (Signature * float)) : store :=
  let '(k, (_, ts)) := item in if expired now ts then delete k acc else acc.

(** [cleanup_paid]: walk a snapshot of the items and pop the expired keys. *)
Definition cleanup_paid (now : float) (PAID : store) : store :=
  foldl (sweep_item now) PAID (map_to_list PAID).

(** ** The RPC client and the clock

    One request sees the clock twice ([time.time()] in [cleanup_paid] and
    when the record is written) and talks to the RPC node at most twice.
    What the outside world answers is the request's environment; [inl msg]
    is a raised exception whose [str(e)] is [msg]. *)

Record Transaction := {
  from_pubkey : Pubkey;
  to_pubkey : Pubkey;
  lamports : Z;
  fee_payer : Pubkey;
  signer : Keypair;
  recent_blockhash : Blockhash;
}.

Record env := {
  time_sweep : float;
  get_latest_blockhash : string + Blockhash;
  send_transaction : Transaction -> string + Signature;
  time_record : float;
}.

(** The calls made on [client], in order. *)
Inductive event :=
| GetLatestBlockhash
| SendTransaction (tx : Transaction).

Definition is_send (ev : event) : bool :=
  match ev with SendTransaction _ => true | GetLatestBlockhash => false end.

(** How often [client.send_transaction] was invoked. *)
Definition submissions (tr : list event) : nat := length (filter is_send tr).

(** ** Responses *)

(** [jsonify({"ok": False, "error": msg}), code] *)
Definition error_response (code : Z) (msg : string) : outcome :=
  jsonify code [("ok", PJson (JBool false)); ("error", PJson (JStr msg))].

(** The dictionary of the short-circuit, lines 102-106: [sig] is the
    object taken from the store. *)
Definition already_paid_response (sig : Signature) : outcome :=
  jsonify 200 [("ok", PJson (JBool true)); ("signature", PSignature sig);
               ("already_paid", PJson (JBool true))].

(** The dictionary of a fresh payment, lines 135-142: [sig] is the object
    the RPC client returned. *)
Definition paid_response (cfg : config) (sig : Signature) (receiver : json)
    (amount_sol : float) : outcome :=
  jsonify 200 [("ok", PJson (JBool true)); ("signature", PSignature sig);
               ("from_wallet", PJson (JStr (Pubkey_str (payer_pubkey cfg))));
               ("to_wallet", PJson receiver);
               ("amount_sol", PJson (JFloat amount_sol));
               ("already_paid", PJson (JBool false))].

(** ** [POST /reward/send] *)

(** [request.get_json(silent=True) or {}], then the first [body.get]:
    a truthy body that is no [dict] has no [get]. *)
Definition request_body (parsed : json) : exn + gmap string json :=
  if truthy parsed then
    match parsed with
    | JDict d => inr d
    | _ => inl AttributeError
    end
  else inr ∅.

(** [body.get(name)] and [body.get(name, dflt)]. *)
Definition body_get (body : gmap string json) (name : string) (dflt : json) : json :=
  default dflt (body !! name).

(** [Pubkey.from_string(receiver)]: only a [str] can be parsed. *)
Definition parse_receiver (receiver : json) : option (string * Pubkey) :=
  match receiver with
  | JStr s => pair s <$> Pubkey_from_string s
  | _ => None
  end.

Definition build_tx (cfg : config) (to : Pubkey) (amount : Z) (bh : Blockhash)
    : Transaction :=
  {| from_pubkey := payer_pubkey cfg;
     to_pubkey := to;
     lamports := amount;
     fee_payer := payer_pubkey cfg;
     signer := payer cfg;
     recent_blockhash := bh |}.

Definition reward_send (cfg : config) (w : env) (PAID : store) (parsed : json)
    : store * list event * outcome :=
  let PAID := cleanup_paid (time_sweep w) PAID in
  match request_body parsed with
  | inl e => (PAID, [], Raises e)
  | inr body =>
  let receiver := body_get body "receiver_wallet_address" JNull in
  let amount_sol := body_get body "amount_sol" (JFloat (REWARD_SOL_DEFAULT cfg)) in
  let idem_key := body_get body "idempotency_key" JNull in
  if negb (truthy receiver) then
    (PAID, [], error_response 400 "Missing receiver_wallet_address")
  else
  match py_float amount_sol with
  | None => (PAID, [], error_response 400 "Invalid amount_sol")
  | Some amount_sol =>
  if fle amount_sol fzero || fgt amount_sol fhalf then
    (PAID, [], error_response 400 "amount_sol out of range")
  else
  match parse_receiver receiver with
  | None => (PAID, [], error_response 400 "Invalid receiver wallet address")
  | Some (receiver_s, to) =>
  let key := (receiver_s, py_str idem_key) in
  match (if truthy idem_key then PAID !! key else None) with
  | Some (sig, _) => (PAID, [], already_paid_response sig)
  | None =>
  match to_lamports amount_sol with
  | inl e => (PAID, [], Raises e)
  | inr amount =>
  match get_latest_blockhash w with
  | inl msg => (PAID, [GetLatestBlockhash], error_response 500 msg)
  | inr blockhash =>
  let tx := build_tx cfg to amount blockhash in
  match send_transaction w tx with
  | inl msg => (PAID, [GetLatestBlockhash; SendTransaction tx], error_response 500 msg)
  | inr sig =>
  let PAID := if truthy idem_key then <[key := (sig, time_record w)]> PAID else PAID in
  (PAID, [GetLatestBlockhash; SendTransaction tx],
   paid_response cfg sig receiver amount_sol)
  end end end end end end end.

(** ** [GET /] and [GET /health] *)

Definition root : outcome :=
  jsonify 200 [("ok", PJson (JBool true)); ("service", PJson (JStr "solana-reward-api"))].

Definition health (cfg : config) : outcome :=
  jsonify 200 [("ok", PJson (JBool true));
               ("rpc", PJson (JStr (SOLANA_RPC_URL cfg)));
               ("from_wallet", PJson (JStr (Pubkey_str (payer_pubkey cfg))));
               ("default_reward_sol", PJson (JFloat (REWARD_SOL_DEFAULT cfg)))].

(** ** Requests handled one after the other

    Each request comes with its environment; the store a request leaves
    behind is the store the next one finds.  The result keeps, request by
    request, the RPC calls made and the outcome. *)
Fixpoint serve (cfg : config) (PAID : store) (reqs : list (env * json))
    : store * list (list event * outcome) :=
  match reqs with
  | [] => (PAID, [])
  | (w, parsed) :: rest =>
      let '(PAID1, tr, o) := reward_send cfg w PAID parsed in
      let '(PAID2, results) := serve cfg PAID1 rest in
      (PAID2, (tr, o) :: results)
  end.

(** No request of the sequence arrives after the retention window of a
    record written by an earlier one has passed. *)
Fixpoint within_retention (reqs : list (env * json)) : Prop :=
  match reqs with
  | [] => True
  | (w, _) :: rest =>
      Forall (fun r => expired (time_sweep (fst r)) (time_record w) = false) rest /\
      within_retention rest
  end.

(** The signatures of the transfers of a trace that the RPC node of the
    request accepted: the payments made. *)
Definition payments_of (w : env) (tr : list event) : list Signature :=
  omap (fun ev =>
          match ev with
          | SendTransaction tx =>
              match send_transaction w tx with
              | inr sig => Some sig
              | inl _ => None
              end
          | GetLatestBlockhash => None
          end) tr.

(** The payments made over a sequence of requests. *)
Fixpoint payments (reqs : list (env * json)) (results : list (list event * outcome))
    : list Signature :=
  match reqs, results with
  | (w, _) :: reqs, (tr, _) :: results => (payments_of w tr ++ payments reqs results)%list
  | _, _ => []
  end.

(** ** The handler under concurrent workers

    [reward_send] takes no lock.  A worker touches [PAID] at the start
    (sweep and lookup) and at the end (the write); in between it waits for
    the RPC node, and that is where another worker can run.  The three
    stretches of the handler are the steps of a worker; [reward_send_steps]
    below shows that running them back to back is [reward_send]. *)

(** What a worker carries from the lookup to the RPC call and the write. *)
Record pending := {
  pd_receiver : json;
  pd_receiver_s : string;
  pd_to : Pubkey;
  pd_amount_sol : float;
  pd_idem_key : json;
  pd_lamports : Z;
}.

Definition pd_key (p : pending) : string * string :=
  (pd_receiver_s p, py_str (pd_idem_key p)).

(** From [cleanup_paid()] to [lamports = int(...)]. *)
Definition check_request (cfg : config) (now : float) (PAID : store) (parsed : json)
    : store * (outcome + pending) :=
  let PAID := cleanup_paid now PAID in
  match request_body parsed with
  | inl e => (PAID, inl (Raises e))
  | inr body =>
  let receiver := body_get body "receiver_wallet_address" JNull in
  let amount_sol := body_get body "amount_sol" (JFloat (REWARD_SOL_DEFAULT cfg)) in
  let idem_key := body_get body "idempotency_key" JNull in
  if negb (truthy receiver) then
    (PAID, inl (error_response 400 "Missing receiver_wallet_address"))
  else
  match py_float amount_sol with
  | None => (PAID, inl (error_response 400 "Invalid amount_sol"))
  | Some amount_sol =>
  if fle amount_sol fzero || fgt amount_sol fhalf then
    (PAID, inl (error_response 400 "amount_sol out of range"))
  else
  match parse_receiver receiver with
  | None => (PAID, inl (error_response 400 "Invalid receiver wallet address"))
  | Some (receiver_s, to) =>
  match (if truthy idem_key then PAID !! (receiver_s, py_str idem_key) else None) with
  | Some (sig, _) => (PAID, inl (already_paid_response sig))
  | None =>
  match to_lamports amount_sol with
  | inl e => (PAID, inl (Raises e))
  | inr amount =>
      (PAID, inr {| pd_receiver := receiver; pd_receiver_s := receiver_s;
                    pd_to := to; pd_amount_sol := amount_sol;
                    pd_idem_key := idem_key; pd_lamports := amount |})
  end end end end end.

(** The [try] block around the RPC calls. *)
Definition submit_transfer (cfg : config) (w : env) (p : pending)
    : list event * (outcome + Signature) :=
  match get_latest_blockhash w with
  | inl msg => ([GetLatestBlockhash], inl (error_response 500 msg))
  | inr blockhash =>
      let tx := build_tx cfg (pd_to p) (pd_lamports p) blockhash in
      match send_transaction w tx with
      | inl msg => ([GetLatestBlockhash; SendTransaction tx], inl (error_response 500 msg))
      | inr sig => ([GetLatestBlockhash; SendTransaction tx], inr sig)
      end
  end.

(** The write to [PAID] and the final [jsonify]. *)
Definition record_payment (cfg : config) (now : float) (PAID : store) (p : pending)
    (sig : Signature) : store * outcome :=
  let PAID := if truthy (pd_idem_key p) then <[pd_key p := (sig, now)]> PAID else PAID in
  (PAID, paid_response cfg sig (pd_receiver p) (pd_amount_sol p)).

(** A worker and where it stands in the handler. *)
Inductive worker :=
| Arrived (parsed : json)
| Checked (p : pending)
| Submitted (p : pending) (sig : Signature)
| Finished (o : outcome).

Definition worker_step (cfg : config) (w : env) (PAID : store) (t : worker)
    : store * list event * worker :=
  match t with
  | Arrived parsed =>
      let '(PAID, r) := check_request cfg (time_sweep w) PAID parsed in
      (PAID, [], match r with inl o => Finished o | inr p => Checked p end)
  | Checked p =>
      let '(tr, r) := submit_transfer cfg w p in
      (PAID, tr, match r with inl o => Finished o | inr sig => Submitted p sig end)
  | Submitted p sig =>
      let '(PAID, o) := record_payment cfg (time_record w) PAID p sig in
      (PAID, [], Finished o)
  | Finished o => (PAID, [], Finished o)
  end.

(** The process: the shared store, the log of RPC calls, and the workers,
    each with the environment of its own request. *)
Record process := {
  proc_store : store;
  proc_trace : list event;
  proc_workers : list (env * worker);
}.

(** The scheduler lets worker [i] run its next step. *)
Definition process_step (cfg : config) (s : process) (i : nat) : process :=
  match proc_workers s !! i with
  | None => s
  | Some (w, t) =>
      let '(PAID, tr, t') := worker_step cfg w (proc_store s) t in
      {| proc_store := PAID;
         proc_trace := proc_trace s ++ tr;
         proc_workers := <[i := (w, t')]> (proc_workers s) |}
  end.

Definition run (cfg : config) (schedule : list nat) (s : process) : process :=
  foldl (process_step cfg) s schedule.

(** The outcome worker [i] has reached, if it has finished. *)
Definition result_of (s : process) (i : nat) : option outcome :=
  match proc_workers s !! i with
  | Some (_, Finished o) => Some o
  | _ => None
  end.



(** ** Requests the validator lets through, and those it turns away *)

(** The body names a receiver that parses to [to] and an amount (given or
    defaulted) that is a double in the interval (0, 0.5]. *)
Record accepted (cfg : config) (body : gmap string json)
    (receiver : string) (to : Pubkey) (amount : float) : Prop := {
  acc_receiver : body !! "receiver_wallet_address" = Some (JStr receiver);
  acc_receiver_given : receiver <> "";
  acc_pubkey : Pubkey_from_string receiver = Some to;
  acc_amount :
    py_float (body_get body "amount_sol" (JFloat (REWARD_SOL_DEFAULT cfg))) = Some amount;
  acc_double : valid_binary prec emax amount = true;
  acc_positive : flt fzero amount = true;
  acc_ceiling : fle amount fhalf = true;
}.

(** The four validation failures of the handler, as it tests them. *)
Definition rejected (cfg : config) (body : gmap string json) : Prop :=
  truthy (body_get body "receiver_wallet_address" JNull) = false \/
  match py_float (body_get body "amount_sol" (JFloat (REWARD_SOL_DEFAULT cfg))) with
  | None => True
  | Some a => fle a fzero || fgt a fhalf = true
  end \/
  parse_receiver (body_get body "receiver_wallet_address" JNull) = None.

(** The lamports of an accepted amount. *)
Definition lamports_of (amount : float) : Z :=
  match to_lamports amount with
  | inr n => n
  | inl _ => 0
  end.

(** The idempotency key of a body, as the handler reads it. *)
Definition idem_key_of (body : gmap string json) : json :=
  body_get body "idempotency_key" JNull.

(** A request of the sequence is a retry for [receiver] under the key text
    [key]: an accepted body for that receiver whose truthy idempotency key
    prints as [key]. *)
Definition retry_of (cfg : config) (receiver : string) (to : Pubkey) (key : string)
    (r : env * json) : Prop :=
  exists body amount,
    snd r = JDict body /\
    accepted cfg body receiver to amount /\
    truthy (idem_key_of body) = true /\
    py_str (idem_key_of body) = key.

(** ** Reading a response *)

Definition field (name : string) (o : outcome) : option json :=
  match o with
  | Returns r => snd <$> List.find (fun kv => String.eqb (fst kv) name) (payload r)
  | Raises _ => None
  end.

Definition status_of (o : outcome) : option Z :=
  match o with
  | Returns r => Some (status r)
  | Raises _ => None
  end.

End Handler.

(** ** A reference runtime

    A concrete implementation of [Runtime], used to run the handler on
    examples: CPython's [float] on ASCII text, Bitcoin-alphabet base58 as
    in the [base58] package and in [Pubkey.from_string], keys as raw
    bytes. *)

Definition code (c : ascii) : Z := Z.of_N (N_of_ascii c).

(** ASCII characters for which [str.isspace] holds; [str.rstrip] drops
    these. *)
Definition is_space (c : ascii) : bool :=
  ((9 <=? code c) && (code c <=? 13)) || ((28 <=? code c) && (code c <=? 32)).

(** White space as [float] skips it around ASCII text (C's [isspace]). *)
Definition is_c_space (c : ascii) : bool :=
  ((9 <=? code c) && (code c <=? 13)) || (code c =? 32).

Definition is_digit (c : ascii) : bool := (48 <=? code c) && (code c <=? 57).

Definition digit_value (c : ascii) : Z := code c - 48.

Definition lower (c : ascii) : ascii :=
  if (65 <=? code c) && (code c <=? 90) then ascii_of_N (N_of_ascii c + 32) else c.

Definition ascii_eqb (a b : ascii) : bool := code a =? code b.

(** Underscores may stand between two digits only. *)
Fixpoint drop_underscores (prev : ascii) (s : list ascii) : option (list ascii) :=
  match s with
  | [] => if ascii_eqb prev "_"%char then None else Some []
  | c :: s' =>
      if ascii_eqb c "_"%char then
        if is_digit prev then drop_underscores c s' else None
      else if ascii_eqb prev "_"%char && negb (is_digit c) then None
      else cons c <$> drop_underscores c s'
  end.

Fixpoint lstrip (space : ascii -> bool) (s : list ascii) : list ascii :=
  match s with
  | c :: s' => if space c then lstrip space s' else s
  | [] => []
  end.

Definition rstrip (space : ascii -> bool) (s : list ascii) : list ascii :=
  rev (lstrip space (rev s)).

(** The leading digits of [s] and what follows them. *)
Fixpoint span_digits (s : list ascii) : list ascii * list ascii :=
  match s with
  | c :: s' =>
      if is_digit c then let '(ds, r) := span_digits s' in (c :: ds, r) else ([], s)
  | [] => ([], [])
  end.

Definition digits_value (ds : list ascii) : Z :=
  foldl (fun acc c => 10 * acc + digit_value c) 0 ds.

Definition split_sign (s : list ascii) : bool * list ascii :=
  match s with
  | c :: s' =>
      if ascii_eqb c "-"%char then (true, s')
      else if ascii_eqb c "+"%char then (false, s')
      else (false, s)
  | [] => (false, [])
  end.

(** [digits [. digits] [(e|E) [sign] digits]] with at least one mantissa
    digit, read as [(d, e)] for the value [d * 10^e]. *)
Definition parse_decimal (s : list ascii) : option (Z * Z) :=
  let '(ip, r1) := span_digits s in
  let '(fp, r2) :=
    match r1 with
    | c :: r => if ascii_eqb c "."%char then span_digits r else ([], r1)
    | [] => ([], r1)
    end in
  match (ip ++ fp)%list with
  | [] => None
  | _ :: _ =>
      let d := digits_value (ip ++ fp)%list in
      let shift := Z.of_nat (length fp) in
      match r2 with
      | [] => Some (d, - shift)
      | c :: r3 =>
          if ascii_eqb (lower c) "e"%char then
            let '(neg, r4) := split_sign r3 in
            match span_digits r4 with
            | ((_ :: _) as ep, []) =>
                Some (d, (if neg then - digits_value ep else digits_value ep) - shift)
            | _ => None
            end
          else None
      end
  end.

(** The double nearest to [d * 10^e] (ties to even), [d >= 0]. *)
Definition float_of_decimal (neg : bool) (d e : Z) : float :=
  match d with
  | Zpos m =>
      if 0 <=? e then binary_round prec emax neg (m * Z.to_pos (10 ^ e)) 0
      else
        let '(q, e', l) := SFdiv_core_binary prec emax (Zpos m) 0 (10 ^ (- e)) 0 in
        binary_round_aux prec emax neg q e' l
  | _ => S754_zero neg
  end.

Definition string_of_chars (s : list ascii) : string :=
  foldr String EmptyString s.

(** [float(s)] on ASCII text. *)
Definition float_of_ascii (s : string) : option float :=
  match drop_underscores "000"%char (list_ascii_of_string s) with
  | None => None
  | Some cs =>
      let '(neg, body) := split_sign (rstrip is_c_space (lstrip is_c_space cs)) in
      let word := string_of_chars (map lower body) in
      if String.eqb word "inf" || String.eqb word "infinity" then Some (S754_infinity neg)
      else if String.eqb word "nan" then Some S754_nan
      else
        match parse_decimal body with
        | Some (d, e) => Some (float_of_decimal neg d e)
        | None => None
        end
  end.

Definition b58_alphabet : list ascii :=
  list_ascii_of_string "123456789ABCDEFGHJKLMNPQRSTUVWXYZabcdefghijkmnopqrstuvwxyz".

Fixpoint index_of (c : ascii) (alphabet : list ascii) (i : Z) : option Z :=
  match alphabet with
  | [] => None
  | a :: rest => if ascii_eqb a c then Some i else index_of c rest (i + 1)
  end.

(** The integer a base58 numeral denotes; [None] on a foreign character. *)
Fixpoint b58decode_int (acc : Z) (s : list ascii) : option Z :=
  match s with
  | [] => Some acc
  | c :: s' =>
      match index_of c b58_alphabet 0 with
      | Some d => b58decode_int (acc * 58 + d) s'
      | None => None
      end
  end.

Fixpoint drop_ones (s : list ascii) : list ascii :=
  match s with
  | c :: s' => if ascii_eqb c "1"%char then drop_ones s' else s
  | [] => []
  end.

Definition byte_of_Z (z : Z) : Byte.byte :=
  default Byte.x00 (Byte.of_N (Z.to_N z)).

(** [z.to_bytes(n, 'big')] *)
Fixpoint to_bytes (n : nat) (z : Z) (acc : list Byte.byte) : list Byte.byte :=
  match n with
  | O => acc
  | S n' => to_bytes n' (z / 256) (byte_of_Z (z mod 256) :: acc)
  end.

Definition bit_length (z : Z) : Z := if z =? 0 then 0 else Z.log2 z + 1.

(** Leading [1]s are zero bytes; the rest is a big-endian number. *)
Definition b58_bytes (v : list ascii) : option (list Byte.byte) :=
  let digits := drop_ones v in
  match b58decode_int 0 digits with
  | Some acc =>
      Some (to_bytes (length v - length digits + Z.to_nat ((bit_length acc + 7) / 8)) acc [])
  | None => None
  end.

(** [base58.b58decode]: trailing white space is dropped first. *)
Definition base58_b58decode (s : string) : option (list Byte.byte) :=
  b58_bytes (rstrip is_space (list_ascii_of_string s)).

(** [Pubkey.from_string]: at most 44 characters that decode to 32 bytes. *)
Definition pubkey_of_string (s : string) : option (list Byte.byte) :=
  let v := list_ascii_of_string s in
  if (44 <? length v)%nat then None
  else
    match b58_bytes v with
    | Some bs => if Nat.eqb (length bs) 32 then Some bs else None
    | None => None
    end.

Definition int_of_bytes (bs : list Byte.byte) : Z :=
  foldl (fun acc b => acc * 256 + Z.of_N (Byte.to_N b)) 0 bs.

Fixpoint b58_numeral (fuel : nat) (z : Z) (acc : list ascii) : list ascii :=
  match fuel with
  | O => acc
  | S fuel' =>
      if z =? 0 then acc
      else b58_numeral fuel' (z / 58)
             (nth (Z.to_nat (z mod 58)) b58_alphabet "1"%char :: acc)
  end.

Fixpoint leading_zero_bytes (bs : list Byte.byte) : nat :=
  match bs with
  | b :: bs' => if (Byte.to_N b =? 0)%N then S (leading_zero_bytes bs') else O
  | [] => O
  end.

(** [str(pubkey)]: the base58 text of the 32 bytes. *)
Definition b58encode (bs : list Byte.byte) : string :=
  string_of_chars
    (repeat "1"%char (leading_zero_bytes bs)
       ++ b58_numeral (2 * length bs) (int_of_bytes bs) [])%list.

(** Keys are their bytes: a key pair is the 64-byte secret, whose second
    half is the public key.  The curve checks of [Keypair.from_bytes] are
    left out here, and so is the text of floats and containers, which no
    example below asks for. *)
Definition reference_runtime : Runtime :=
  {| Pubkey := list Byte.byte;
     Keypair := list Byte.byte;
     float_of_str := float_of_ascii;
     py_repr := fun _ => "<object>";
     b58decode := base58_b58decode;
     Keypair_from_bytes := fun bs => if Nat.eqb (length bs) 64 then Some bs else None;
     Keypair_pubkey := drop 32;
     Pubkey_from_string := pubkey_of_string;
     Pubkey_str := b58encode |}.

(** ** A worked deployment on the reference runtime

    The secret is 64 zero bytes (64 times the base58 digit 1), so the payer
    is the all-zero address; the receiver is the wrapped-SOL mint. *)

Definition demo_secret : string :=
  "1111111111111111111111111111111111111111111111111111111111111111".

Definition demo_environ : gmap string string :=
  {[ "REWARD_WALLET_SECRET_BASE58" := demo_secret ]}.

Definition demo_cfg : @config reference_runtime :=
  @Build_config reference_runtime
    "https://api.devnet.solana.com"
    (S754_finite false 5764607523034235 (-59))
    (repeat Byte.x00 64).

Definition demo_receiver : string := "So11111111111111111111111111111111111111112".

Definition demo_to : list Byte.byte :=
  Eval vm_compute in default [] (pubkey_of_string demo_receiver).

(** 0.25 *)
Definition quarter : float := S754_finite false 4503599627370496 (-54).

(** A request for 0.25 SOL under the idempotency key [key]. *)
Definition demo_body (key : json) : gmap string json :=
  {[ "receiver_wallet_address" := JStr demo_receiver;
     "amount_sol" := JFloat quarter;
     "idempotency_key" := key ]}.

(** The same request without a key. *)
Definition demo_body_keyless : gmap string json :=
  {[ "receiver_wallet_address" := JStr demo_receiver;
     "amount_sol" := JFloat quarter ]}.

(** The clock reads [now] seconds and the RPC node accepts the transfer
    with signature [sig]. *)
Definition demo_env (now : Z) (sig : string) : @env reference_runtime :=
  @Build_env reference_runtime
    (float_of_const now) (inr "blockhash") (fun _ => inr (Sig sig)) (float_of_const now).

(** The clock reads [now] seconds and the RPC node is unreachable. *)
Definition demo_env_down (now : Z) : @env reference_runtime :=
  @Build_env reference_runtime
    (float_of_const now) (inl "connection refused")
    (fun _ => inl "connection refused") (float_of_const now).

(** The deployment with a default reward that is no number. *)
Definition demo_environ_bad_default : gmap string string :=
  {[ "REWARD_SOL_DEFAULT" := "abc";
     "REWARD_WALLET_SECRET_BASE58" := demo_secret ]}.

(** A request whose amount is the text [nan], without and with a key. *)
Definition nan_body : gmap string json :=
  {[ "receiver_wallet_address" := JStr demo_receiver;
     "amount_sol" := JStr "nan" ]}.

Definition nan_body_keyed : gmap string json :=
  {[ "receiver_wallet_address" := JStr demo_receiver;
     "amount_sol" := JStr "nan";
     "idempotency_key" := JStr "abc" ]}.

(** A request that names no receiver. *)
Definition demo_body_no_receiver : gmap string json :=
  {[ "amount_sol" := JFloat quarter ]}.


(** A store with one record, written at second 0. *)
Definition demo_store : store :=
  {[ (demo_receiver, "abc") := (Sig "old-signature", float_of_const 0) ]}.

(** A request that leaves the amount to the default. *)
Definition demo_body_default : gmap string json :=
  {[ "receiver_wallet_address" := JStr demo_receiver;
     "idempotency_key" := JStr "abc" ]}.

(** A request for 1 SOL, twice the ceiling. *)
Definition demo_body_big : gmap string json :=
  {[ "receiver_wallet_address" := JStr demo_receiver;
     "amount_sol" := JInt 1 ]}.

(** A client that retries one payment: the RPC node is down at second
    1000, accepts at second 1001, and would accept again at second 1002.
    The key is sent as the number 7 and as the text 7. *)
Definition demo_retries : list (@env reference_runtime * json) :=
  [(demo_env_down 1000, JDict (demo_body (JInt 7)));
   (demo_env 1001 "sig-1", JDict (demo_body (JStr "7")));
   (demo_env 1002 "sig-2", JDict (demo_body (JInt 7)))].

(** * Properties *)

Section Sweep.
Context `{RT : Runtime}.
Implicit Types (PAID acc : store) (now ts : float) (k : string * string).

Lemma cleanup_paid_fold now PAID :
  cleanup_paid now PAID = foldl (sweep_item now) PAID (map_to_list PAID).
Proof. reflexivity. Qed.

(** The loop only ever removes keys. *)
Lemma sweep_absent now items : forall acc k,
  acc !! k = None -> foldl (sweep_item now) acc items !! k = None.
Proof.
  induction items as [|[k' [sig ts]] items IH]; intros acc k Hk; simpl; [exact Hk|].
  apply IH. destruct (expired now ts); [|exact Hk].
  rewrite lookup_delete. case_decide; [reflexivity|exact Hk].
Qed.

(** A key none of whose listed records is expired is left alone. *)
Lemma sweep_kept now items : forall acc k,
  (forall sig ts, (k, (sig, ts)) ∈ items -> expired now ts = false) ->
  foldl (sweep_item now) acc items !! k = acc !! k.
Proof.
  induction items as [|[k' [sig ts]] items IH]; intros acc k Hk; simpl; [reflexivity|].
  rewrite IH.
  - destruct (expired now ts) eqn:He; [|reflexivity].
    rewrite lookup_delete. case_decide as Hkk; [|reflexivity].
    subst k'. rewrite (Hk sig ts) in He; [discriminate|]. apply list_elem_of_here.
  - intros sig' ts' Hin. apply (Hk sig' ts'). apply list_elem_of_further, Hin.
Qed.

(** A key listed with an expired record is gone afterwards. *)
Lemma sweep_dropped now items : forall acc k sig ts,
  (k, (sig, ts)) ∈ items -> expired now ts = true ->
  foldl (sweep_item now) acc items !! k = None.
Proof.
  induction items as [|item items IH]; intros acc k sig ts Hin He.
  - inversion Hin.
  - apply elem_of_cons in Hin as [<-|Hin]; simpl.
    + rewrite He. apply sweep_absent, lookup_delete_eq.
    + eapply IH; eassumption.
Qed.

(** What a lookup finds after the sweep. *)
Lemma cleanup_paid_lookup now PAID k :
  cleanup_paid now PAID !! k =
  match PAID !! k with
  | Some (sig, ts) => if expired now ts then None else Some (sig, ts)
  | None => None
  end.
Proof.
  rewrite cleanup_paid_fold.
  destruct (PAID !! k) as [[sig ts]|] eqn:Hk.
  - destruct (expired now ts) eqn:He.
    + eapply sweep_dropped; [|exact He]. apply elem_of_map_to_list, Hk.
    + rewrite sweep_kept; [exact Hk|].
      intros sig' ts' Hin. apply elem_of_map_to_list in Hin.
      rewrite Hk in Hin. injection Hin as <- <-. exact He.
  - apply sweep_absent, Hk.
Qed.

Lemma cleanup_paid_absent now PAID k :
  PAID !! k = None -> cleanup_paid now PAID !! k = None.
Proof. intros Hk. rewrite cleanup_paid_lookup, Hk. reflexivity. Qed.

Lemma cleanup_paid_empty now : cleanup_paid now (∅ : store) = ∅.
Proof. apply map_eq. intros k. rewrite cleanup_paid_lookup. reflexivity. Qed.

End Sweep.

(** ** Doubles: the conversion to lamports cannot fail on an accepted amount *)

Section Lamports.

Lemma py_int_number x : is_number x = true -> exists n, py_int x = inr n.
Proof. destruct x; simpl; intros H; try discriminate; eexists; reflexivity. Qed.

Lemma iter_pos_invariant {A} (P : A -> Prop) (f : A -> A) :
  (forall x, P x -> P (f x)) -> forall n x, P x -> P (SpecFloat.iter_pos f n x).
Proof.
  intros Hf. induction n as [n IH|n IH|]; intros x Hx; simpl; auto.
Qed.

Lemma shr_1_bounds (b : Z) mrs :
  0 <= shr_m mrs <= b -> 0 <= shr_m (shr_1 mrs) <= b.
Proof.
  destruct mrs as [m r s]. simpl. destruct m as [|[p|p|]|p]; simpl; lia.
Qed.

Lemma shr_bounds (b : Z) mrs e n :
  0 <= shr_m mrs <= b ->
  0 <= shr_m (fst (shr mrs e n)) <= b /\ snd (shr mrs e n) = Z.max e (e + n).
Proof.
  intros Hm. destruct n as [|p|p]; simpl; try (split; [exact Hm|lia]).
  split; [|lia].
  apply (iter_pos_invariant (fun x => 0 <= shr_m x <= b)); [|exact Hm].
  intros x. apply shr_1_bounds.
Qed.

Lemma shr_fexp_bounds m e l :
  0 <= m ->
  0 <= shr_m (fst (shr_fexp prec emax m e l)) <= m /\
  snd (shr_fexp prec emax m e l) = Z.max e (fexp prec emax (Zdigits2 m + e)).
Proof.
  intros Hm. unfold shr_fexp.
  destruct (shr_bounds m (shr_record_of_loc m l) e
              (fexp prec emax (Zdigits2 m + e) - e)) as [H1 H2].
  - destruct l as [|[]]; simpl; lia.
  - split; [exact H1|]. rewrite H2. f_equal. lia.
Qed.

Lemma round_nearest_even_bounds m l :
  0 <= m -> m <= round_nearest_even m l <= m + 1.
Proof.
  intros Hm. destruct l as [|[]]; simpl; try lia.
  destruct (Z.even m); lia.
Qed.

Lemma digits2_pos_size p : digits2_pos p = Pos.size p.
Proof. induction p; simpl; congruence. Qed.

Lemma Zdigits2_log2 m : 0 < m -> Zdigits2 m = Z.log2 m + 1.
Proof.
  destruct m as [|p|p]; try lia. intros _. simpl. rewrite digits2_pos_size.
  destruct p; simpl; lia.
Qed.

Lemma Zdigits2_mono a b : 0 <= a <= b -> Zdigits2 a <= Zdigits2 b.
Proof.
  intros [Ha Hab]. destruct (Z.eq_dec a 0) as [->|Hne].
  - destruct b; simpl; lia.
  - rewrite !Zdigits2_log2 by lia. pose proof (Z.log2_le_mono a b Hab). lia.
Qed.

Lemma Zdigits2_succ a : 0 <= a -> Zdigits2 (a + 1) <= Zdigits2 a + 1.
Proof.
  intros Ha. destruct (Z.eq_dec a 0) as [->|Hne]; [simpl; lia|].
  rewrite !Zdigits2_log2 by lia.
  pose proof (Z.log2_succ_le a). unfold Z.succ in *. lia.
Qed.

Lemma Zdigits2_mul a b :
  0 < a -> 0 < b -> Zdigits2 (a * b) <= Zdigits2 a + Zdigits2 b.
Proof.
  intros Ha Hb. rewrite !Zdigits2_log2 by lia.
  pose proof (Z.log2_mul_above a b). lia.
Qed.

(** Rounding a product of two doubles of small exponent stays in range. *)
Lemma binary_round_aux_number s mx ex :
  Zdigits2 (Zpos mx) <= 106 -> ex <= 0 ->
  is_number (binary_round_aux prec emax s (Zpos mx) ex loc_Exact) = true.
Proof.
  intros Hd Hex. unfold binary_round_aux.
  pose proof (shr_fexp_bounds (Zpos mx) ex loc_Exact ltac:(lia)) as [Hm1 He1].
  destruct (shr_fexp prec emax (Zpos mx) ex loc_Exact) as [mrs1 e1]. cbn [fst snd] in Hm1, He1.
  set (m2 := round_nearest_even (shr_m mrs1) (loc_of_shr_record mrs1)).
  pose proof (round_nearest_even_bounds (shr_m mrs1) (loc_of_shr_record mrs1)
                ltac:(lia)) as Hm2. fold m2 in Hm2.
  pose proof (shr_fexp_bounds m2 e1 loc_Exact ltac:(lia)) as [Hm3 He3].
  destruct (shr_fexp prec emax m2 e1 loc_Exact) as [mrs3 e3]. cbn [fst snd] in Hm3, He3.
  assert (Zdigits2 m2 <= 107) as Hd2.
  { pose proof (Zdigits2_mono m2 (Zpos mx + 1) ltac:(lia)).
    pose proof (Zdigits2_succ (Zpos mx) ltac:(lia)). lia. }
  assert (e3 <= emax - prec) as He.
  { subst e3 e1. unfold fexp, emin, emax, prec in *. lia. }
  destruct (shr_m mrs3) as [|p|p] eqn:Hm; simpl; [reflexivity| |exfalso; lia].
  apply Z.leb_le in He. unfold emax, prec in *. rewrite He. reflexivity.
Qed.

Lemma lamports_per_sol_double :
  float_of_const LAMPORTS_PER_SOL = S754_finite false 8388608000000000 (-23).
Proof. reflexivity. Qed.




Lemma in_range_shape a :
  flt fzero a = true -> fle a fhalf = true ->
  exists m e, a = S754_finite false m e /\ e <= -53.
Proof.
  unfold flt, fle, SFltb, SFleb, fzero, fhalf.
  destruct a as [s|s| |s m e]; unfold SFcompare.
  - discriminate.
  - destruct s; discriminate.
  - discriminate.
  - destruct s; [discriminate|]. intros _ H. exists m, e. split; [reflexivity|].
    destruct (Z.compare_spec e (-53)); [lia|lia|discriminate].
Qed.

Lemma compare_cont_flip p q :
  Pos.compare_cont Eq q p = CompOpp (Pos.compare_cont Eq p q).
Proof. rewrite Pos.compare_cont_antisym. reflexivity. Qed.

(** The range test of the handler lets such an amount through. *)
Lemma in_range_passes a :
  flt fzero a = true -> fle a fhalf = true ->
  fle a fzero || fgt a fhalf = false.
Proof.
  intros H0 H1. destruct (in_range_shape a H0 H1) as (m & e & -> & He).
  revert H1. unfold fle, fgt, SFleb, SFltb, fzero, fhalf, SFcompare.
  rewrite (Z.compare_antisym e (-53)), (compare_cont_flip m 4503599627370496).
  destruct (Z.compare_spec e (-53)) as [->|Hlt|Hgt]; cbv beta iota delta [CompOpp orb];
    try discriminate; [|reflexivity].
  destruct (Pos.compare_cont Eq m 4503599627370496); cbv beta iota delta [CompOpp orb];
    intros H; try discriminate; reflexivity.
Qed.

(** On every float but NaN the range test of the handler passes exactly
    the amounts in (0, 0.5]. *)
Lemma range_test_spec a :
  a <> S754_nan ->
  (fle a fzero || fgt a fhalf = false <-> flt fzero a = true /\ fle a fhalf = true).
Proof.
  intros Hnan. split; [|intros [H0 H1]; apply in_range_passes; assumption].
  unfold fle, fgt, flt, SFleb, SFltb, fzero, fhalf.
  destruct a as [s|s| |s m e]; unfold SFcompare.
  - discriminate.
  - destruct s; discriminate.
  - contradiction.
  - destruct s; [discriminate|].
    rewrite (Z.compare_antisym e (-53)), (compare_cont_flip m 4503599627370496).
    destruct (Z.compare_spec e (-53)) as [->|Hlt|Hgt]; cbv beta iota delta [CompOpp orb];
      try discriminate; [|split; reflexivity].
    destruct (Pos.compare_cont Eq m 4503599627370496); cbv beta iota delta [CompOpp orb];
      intros H; try discriminate; split; reflexivity.
Qed.

(** On a well-formed double in (0, 0.5], [int(amount_sol * LAMPORTS_PER_SOL)]
    raises nothing. *)
Lemma lamports_defined a :
  valid_binary prec emax a = true ->
  flt fzero a = true -> fle a fhalf = true ->
  exists n, to_lamports a = inr n.
Proof.
  intros Hv H0 H1. destruct (in_range_shape a H0 H1) as (m & e & -> & He).
  apply py_int_number. unfold to_lamports. rewrite lamports_per_sol_double.
  unfold fmul, SFmul. cbn [xorb].
  apply binary_round_aux_number; [|lia].
  unfold valid_binary, bounded, canonical_mantissa in Hv.
  apply andb_prop in Hv as [Hc _]. apply Z.eqb_eq in Hc.
  rewrite Pos2Z.inj_mul.
  pose proof (Zdigits2_mul (Zpos m) 8388608000000000 ltac:(lia) ltac:(lia)) as Hd.
  change (Zdigits2 8388608000000000) with 53 in Hd.
  change (Zdigits2 (Zpos m)) with (Zpos (digits2_pos m)) in Hd.
  unfold fexp, emin, emax, prec in Hc. lia.
Qed.

End Lamports.

(** ** The handler, step by step *)

Section HandlerFacts.
Context `{RT : Runtime}.
Implicit Types (cfg : config) (w : env) (PAID : store) (body : gmap string json).

(** [jsonify] cannot serialise the [Signature] object: the two calls that
    are handed one raise [TypeError]. *)
Lemma already_paid_response_raises sig : already_paid_response sig = Raises TypeError.
Proof. reflexivity. Qed.

Lemma paid_response_raises cfg sig receiver amount :
  paid_response cfg sig receiver amount = Raises TypeError.
Proof. reflexivity. Qed.

(** Running the three steps of a worker back to back is the handler. *)
Lemma reward_send_steps cfg w PAID parsed :
  reward_send cfg w PAID parsed =
  match check_request cfg (time_sweep w) PAID parsed with
  | (PAID1, inl o) => (PAID1, [], o)
  | (PAID1, inr p) =>
      match submit_transfer cfg w p with
      | (tr, inl o) => (PAID1, tr, o)
      | (tr, inr sig) =>
          let '(PAID2, o) := record_payment cfg (time_record w) PAID1 p sig in
          (PAID2, tr, o)
      end
  end.
Proof.
  unfold reward_send, check_request, submit_transfer, record_payment, pd_key.
  destruct (request_body parsed) as [e|body]; [reflexivity|].
  cbv zeta.
  destruct (negb (truthy (body_get body "receiver_wallet_address" JNull))); [reflexivity|].
  destruct (py_float _) as [a|]; [|reflexivity].
  destruct (fle a fzero || fgt a fhalf); [reflexivity|].
  destruct (parse_receiver _) as [[receiver_s to]|]; [|reflexivity].
  destruct (if truthy _ then _ else _) as [[sig ts]|]; [reflexivity|].
  destruct (to_lamports a) as [e|n]; [reflexivity|].
  cbn [pd_to pd_lamports pd_idem_key pd_receiver_s pd_receiver pd_amount_sol].
  destruct (get_latest_blockhash w) as [msg|bh]; [reflexivity|].
  destruct (send_transaction w _) as [msg|sig]; reflexivity.
Qed.

Lemma accepted_body cfg body receiver to amount :
  accepted cfg body receiver to amount -> request_body (JDict body) = inr body.
Proof.
  intros H. unfold request_body. cbn [truthy].
  destruct (Nat.eqb (size body) 0) eqn:Hs; [|reflexivity].
  apply Nat.eqb_eq, map_size_empty_inv in Hs. subst body.
  pose proof (acc_receiver _ _ _ _ _ H) as Hr. rewrite lookup_empty in Hr. discriminate.
Qed.

Lemma accepted_lamports cfg body receiver to amount :
  accepted cfg body receiver to amount -> to_lamports amount = inr (lamports_of amount).
Proof.
  intros H.
  destruct (lamports_defined amount (acc_double _ _ _ _ _ H)
              (acc_positive _ _ _ _ _ H) (acc_ceiling _ _ _ _ _ H)) as [n Hn].
  unfold lamports_of. rewrite Hn. reflexivity.
Qed.

(** What the first step does with an accepted request. *)
Lemma check_request_accepted cfg now PAID body receiver to amount :
  accepted cfg body receiver to amount ->
  check_request cfg now PAID (JDict body) =
  match (if truthy (idem_key_of body)
         then cleanup_paid now PAID !! (receiver, py_str (idem_key_of body))
         else None) with
  | Some (sig, _) => (cleanup_paid now PAID, inl (Raises TypeError))
  | None =>
      (cleanup_paid now PAID,
       inr {| pd_receiver := JStr receiver; pd_receiver_s := receiver;
              pd_to := to; pd_amount_sol := amount;
              pd_idem_key := idem_key_of body;
              pd_lamports := lamports_of amount |})
  end.
Proof.
  intros H. unfold check_request.
  rewrite (accepted_body _ _ _ _ _ H). cbv zeta.
  assert (body_get body "receiver_wallet_address" JNull = JStr receiver) as ->.
  { unfold body_get. rewrite (acc_receiver _ _ _ _ _ H). reflexivity. }
  assert (truthy (JStr receiver) = true) as ->.
  { cbn [truthy]. apply negb_true_iff, String.eqb_neq, (acc_receiver_given _ _ _ _ _ H). }
  cbn [negb]. rewrite (acc_amount _ _ _ _ _ H).
  rewrite (in_range_passes amount (acc_positive _ _ _ _ _ H) (acc_ceiling _ _ _ _ _ H)).
  cbn [parse_receiver]. rewrite (acc_pubkey _ _ _ _ _ H). cbn [fmap option_fmap option_map].
  fold (idem_key_of body).
  destruct (if truthy (idem_key_of body) then _ else _) as [[sig ts]|]; [reflexivity|].
  rewrite (accepted_lamports _ _ _ _ _ H). reflexivity.
Qed.

(** An accepted request whose key has a live record goes to the
    short-circuit: no RPC call, and [jsonify] raises on the stored
    signature. *)
Lemma reward_send_hit cfg w PAID body receiver to amount sig ts :
  accepted cfg body receiver to amount ->
  truthy (idem_key_of body) = true ->
  cleanup_paid (time_sweep w) PAID !! (receiver, py_str (idem_key_of body)) = Some (sig, ts) ->
  reward_send cfg w PAID (JDict body) =
  (cleanup_paid (time_sweep w) PAID, [], Raises TypeError).
Proof.
  intros H Hk Hl. rewrite reward_send_steps, (check_request_accepted _ _ _ _ _ _ _ H).
  rewrite Hk, Hl. reflexivity.
Qed.

(** An accepted request with no key, or with a key that has no live
    record, goes to the RPC node. *)
Lemma reward_send_miss cfg w PAID body receiver to amount :
  accepted cfg body receiver to amount ->
  (truthy (idem_key_of body) = true ->
   cleanup_paid (time_sweep w) PAID !! (receiver, py_str (idem_key_of body)) = None) ->
  reward_send cfg w PAID (JDict body) =
  match get_latest_blockhash w with
  | inl msg => (cleanup_paid (time_sweep w) PAID, [GetLatestBlockhash], error_response 500 msg)
  | inr bh =>
      let tx := build_tx cfg to (lamports_of amount) bh in
      match send_transaction w tx with
      | inl msg =>
          (cleanup_paid (time_sweep w) PAID, [GetLatestBlockhash; SendTransaction tx],
           error_response 500 msg)
      | inr sig =>
          (if truthy (idem_key_of body)
           then <[(receiver, py_str (idem_key_of body)) := (sig, time_record w)]>
                  (cleanup_paid (time_sweep w) PAID)
           else cleanup_paid (time_sweep w) PAID,
           [GetLatestBlockhash; SendTransaction tx],
           Raises TypeError)
      end
  end.
Proof.
  intros H Hk. rewrite reward_send_steps, (check_request_accepted _ _ _ _ _ _ _ H).
  unfold submit_transfer, record_payment, pd_key.
  destruct (truthy (idem_key_of body)) eqn:Ht; [rewrite (Hk eq_refl)|];
    cbn [pd_to pd_lamports pd_idem_key pd_receiver_s pd_receiver pd_amount_sol];
    (destruct (get_latest_blockhash w) as [msg|bh]; [reflexivity|]);
    cbv zeta; (destruct (send_transaction w _) as [msg|sig]; [reflexivity|]);
    rewrite Ht; reflexivity.
Qed.

(** Whatever the request, the store afterwards is the swept store, with at
    most one record written into it. *)
Lemma reward_send_store cfg w PAID parsed :
  fst (fst (reward_send cfg w PAID parsed)) = cleanup_paid (time_sweep w) PAID \/
  exists k sig,
    fst (fst (reward_send cfg w PAID parsed)) =
    <[k := (sig, time_record w)]> (cleanup_paid (time_sweep w) PAID).
Proof.
  unfold reward_send.
  destruct (request_body parsed) as [e|body]; [left; reflexivity|].
  cbv zeta.
  destruct (negb _); [left; reflexivity|].
  destruct (py_float _) as [a|]; [|left; reflexivity].
  destruct (fle a fzero || fgt a fhalf); [left; reflexivity|].
  destruct (parse_receiver _) as [[receiver_s to]|]; [|left; reflexivity].
  destruct (if truthy _ then _ else _) as [[sig ts]|]; [left; reflexivity|].
  destruct (to_lamports a) as [e|n]; [left; reflexivity|].
  destruct (get_latest_blockhash w) as [msg|bh]; [left; reflexivity|].
  destruct (send_transaction w _) as [msg|sig]; [left; reflexivity|].
  destruct (truthy _); [right; eexists _, _; reflexivity|left; reflexivity].
Qed.

End HandlerFacts.

(** * The claims *)

Section Claims.
Context `{RT : Runtime}.
Implicit Types (cfg : config) (w : env) (PAID : store) (body : gmap string json).

(** C1, as the code has it.  Two accepted requests for the same receiver
    whose truthy idempotency keys have the same text are handled one after
    the other.  The key has no live record when the first arrives, the RPC
    node accepts the first transfer with signature [sig], and the record
    is still within its retention window when the second arrives.  Then
    the first request sends the transfer and records [sig]; the second
    finds that record, makes no RPC call and leaves the record as it is;
    over the two requests [send_transaction] is invoked exactly once. *)
Theorem replay_is_short_circuited cfg w1 w2 PAID body1 body2
    receiver to amount1 amount2 bh sig :
  accepted cfg body1 receiver to amount1 ->
  accepted cfg body2 receiver to amount2 ->
  truthy (idem_key_of body1) = true ->
  truthy (idem_key_of body2) = true ->
  py_str (idem_key_of body1) = py_str (idem_key_of body2) ->
  cleanup_paid (time_sweep w1) PAID !! (receiver, py_str (idem_key_of body1)) = None ->
  get_latest_blockhash w1 = inr bh ->
  send_transaction w1 (build_tx cfg to (lamports_of amount1) bh) = inr sig ->
  expired (time_sweep w2) (time_record w1) = false ->
  let '(PAID1, tr1, o1) := reward_send cfg w1 PAID (JDict body1) in
  let '(PAID2, tr2, o2) := reward_send cfg w2 PAID1 (JDict body2) in
  tr1 = [GetLatestBlockhash; SendTransaction (build_tx cfg to (lamports_of amount1) bh)] /\
  PAID1 !! (receiver, py_str (idem_key_of body1)) = Some (sig, time_record w1) /\
  cleanup_paid (time_sweep w2) PAID1 !! (receiver, py_str (idem_key_of body2))
  = Some (sig, time_record w1) /\
  tr2 = [] /\
  PAID2 = cleanup_paid (time_sweep w2) PAID1 /\
  submissions (tr1 ++ tr2) = 1%nat.
Proof.
  intros H1 H2 Hk1 Hk2 Hs Hfresh Hbh Hsend Hlive.
  rewrite (reward_send_miss _ _ _ _ _ _ _ H1 (fun _ => Hfresh)).
  rewrite Hbh. cbv zeta. rewrite Hsend, Hk1.
  assert (cleanup_paid (time_sweep w2)
            (<[(receiver, py_str (idem_key_of body1)) := (sig, time_record w1)]>
               (cleanup_paid (time_sweep w1) PAID))
          !! (receiver, py_str (idem_key_of body2)) = Some (sig, time_record w1)) as Hhit
    by (rewrite cleanup_paid_lookup, <- Hs, lookup_insert_eq, Hlive; reflexivity).
  rewrite (reward_send_hit _ _ _ _ _ _ _ sig (time_record w1) H2 Hk2 Hhit).
  split; [reflexivity|]. split; [apply lookup_insert_eq|]. split; [exact Hhit|].
  repeat split; reflexivity.
Qed.

(** The branches of [reward_send] that answer 400, one per test. *)
Lemma reward_send_rejected cfg w PAID parsed body :
  request_body parsed = inr body -> rejected cfg body ->
  exists msg,
    reward_send cfg w PAID parsed =
    (cleanup_paid (time_sweep w) PAID, [], error_response 400 msg).
Proof.
  intros Hb Hr. unfold reward_send. rewrite Hb. cbv zeta.
  destruct (truthy (body_get body "receiver_wallet_address" JNull)) eqn:Ht;
    cbn [negb]; [|eexists; reflexivity].
  destruct (py_float _) as [a|] eqn:Ha; [|eexists; reflexivity].
  destruct (fle a fzero || fgt a fhalf) eqn:Hrange; [eexists; reflexivity|].
  destruct (parse_receiver _) as [[receiver_s to]|] eqn:Hp; [|eexists; reflexivity].
  destruct Hr as [Hr|[Hr|Hr]]; [congruence|rewrite Ha in Hr; congruence|congruence].
Qed.

Lemma reward_send_400 cfg w PAID parsed body :
  request_body parsed = inr body ->
  status_of (snd (reward_send cfg w PAID parsed)) = Some 400 -> rejected cfg body.
Proof.
  intros Hb. unfold reward_send, rejected. rewrite Hb. cbv zeta.
  destruct (truthy (body_get body "receiver_wallet_address" JNull)) eqn:Ht;
    cbn [negb]; [|left; reflexivity].
  destruct (py_float _) as [a|] eqn:Ha; [|right; left; exact I].
  destruct (fle a fzero || fgt a fhalf) eqn:Hrange; [right; left; reflexivity|].
  destruct (parse_receiver _) as [[receiver_s to]|] eqn:Hp; [|right; right; reflexivity].
  destruct (if truthy _ then _ else _) as [[sig ts]|]; [discriminate|].
  destruct (to_lamports a) as [e|n]; [discriminate|].
  destruct (get_latest_blockhash w) as [msg|bh]; [discriminate|].
  destruct (send_transaction w _) as [msg|sig]; discriminate.
Qed.

(** C6, as the code has it.  A request is rejected by validation when its
    receiver is missing, its amount is no float or is outside the range
    test, or its receiver does not parse.  Exactly those requests are
    answered 400; for them no RPC call is made and the store after the
    response is the store swept at arrival: expired records are gone and
    nothing else has changed. *)
Theorem rejected_request_only_sweeps cfg w PAID parsed body PAID' tr o :
  request_body parsed = inr body ->
  reward_send cfg w PAID parsed = (PAID', tr, o) ->
  (rejected cfg body <-> status_of o = Some 400) /\
  (rejected cfg body ->
   tr = [] /\ PAID' = cleanup_paid (time_sweep w) PAID /\
   exists msg,
     o = Returns {| status := 400;
                    payload := [("ok", JBool false); ("error", JStr msg)] |}).
Proof.
  intros Hb Hrun. split; [split|].
  - intros Hr. destruct (reward_send_rejected cfg w PAID parsed body Hb Hr) as [msg Hm].
    rewrite Hm in Hrun. injection Hrun as <- <- <-. reflexivity.
  - intros Hs. apply (reward_send_400 cfg w PAID parsed body Hb).
    rewrite Hrun. exact Hs.
  - intros Hr. destruct (reward_send_rejected cfg w PAID parsed body Hb Hr) as [msg Hm].
    rewrite Hm in Hrun. injection Hrun as <- <- <-.
    repeat split. exists msg. reflexivity.
Qed.

(** A request that misses the lookup calls the RPC node: the block hash is
    fetched, and once it is there the transfer is sent. *)
Lemma miss_calls_rpc cfg w PAID body receiver to amount PAID' tr o :
  accepted cfg body receiver to amount ->
  (truthy (idem_key_of body) = true ->
   cleanup_paid (time_sweep w) PAID !! (receiver, py_str (idem_key_of body)) = None) ->
  reward_send cfg w PAID (JDict body) = (PAID', tr, o) ->
  head tr = Some GetLatestBlockhash /\
  forall bh, get_latest_blockhash w = inr bh ->
    tr = [GetLatestBlockhash; SendTransaction (build_tx cfg to (lamports_of amount) bh)].
Proof.
  intros H Hk. rewrite (reward_send_miss _ _ _ _ _ _ _ H Hk).
  destruct (get_latest_blockhash w) as [msg|bh].
  - intros [= <- <- <-]. split; [reflexivity|]. intros bh' [=].
  - cbv zeta. destruct (send_transaction w _) as [msg|sig];
      intros [= <- <- <-]; (split; [reflexivity|]); intros bh' [= <-]; reflexivity.
Qed.

(** C2. A failed submission is not remembered.  An accepted request that
    reaches the RPC calls (it has no key, or its key has no live record)
    and whose block-hash fetch or transfer fails with text [msg] is
    answered 500 with that text; the store is exactly the swept store,
    and the same request sent again calls the RPC node again. *)
Theorem failed_submission_leaves_no_record cfg w PAID body receiver to amount
    msg PAID1 tr1 o1 :
  accepted cfg body receiver to amount ->
  (truthy (idem_key_of body) = true ->
   cleanup_paid (time_sweep w) PAID !! (receiver, py_str (idem_key_of body)) = None) ->
  (get_latest_blockhash w = inl msg \/
   exists bh, get_latest_blockhash w = inr bh /\
     send_transaction w (build_tx cfg to (lamports_of amount) bh) = inl msg) ->
  reward_send cfg w PAID (JDict body) = (PAID1, tr1, o1) ->
  o1 = Returns {| status := 500;
                  payload := [("ok", JBool false); ("error", JStr msg)] |} /\
  PAID1 = cleanup_paid (time_sweep w) PAID /\
  forall w2 PAID2 tr2 o2,
    reward_send cfg w2 PAID1 (JDict body) = (PAID2, tr2, o2) ->
    head tr2 = Some GetLatestBlockhash /\
    forall bh2, get_latest_blockhash w2 = inr bh2 ->
      tr2 = [GetLatestBlockhash;
             SendTransaction (build_tx cfg to (lamports_of amount) bh2)].
Proof.
  intros H Hk Hfail Hrun.
  assert (o1 = error_response 500 msg /\ PAID1 = cleanup_paid (time_sweep w) PAID)
    as [-> ->].
  { rewrite (reward_send_miss _ _ _ _ _ _ _ H Hk) in Hrun.
    destruct Hfail as [Hbh|(bh & Hbh & Hsend)]; rewrite Hbh in Hrun.
    - injection Hrun as <- <- <-. split; reflexivity.
    - cbv zeta in Hrun. rewrite Hsend in Hrun.
      injection Hrun as <- <- <-. split; reflexivity. }
  split; [reflexivity|]. split; [reflexivity|].
  intros w2 PAID2 tr2 o2 Hretry.
  apply (miss_calls_rpc cfg w2 (cleanup_paid (time_sweep w) PAID) body receiver to amount
           PAID2 tr2 o2 H); [|exact Hretry].
  intros Ht. apply cleanup_paid_absent, Hk, Ht.
Qed.

(** C5. The sweep.  After [cleanup_paid] a lookup finds exactly the
    records that were there and are not older than the retention window;
    every request starts with it, so the store a request leaves behind is
    the swept store with at most one record written; and an accepted
    request whose key has an expired record misses the lookup, sends a new
    transfer and records the new signature in place of the old one. *)
Theorem sweep_purges_expired_records cfg w PAID :
  (forall now k,
     cleanup_paid now PAID !! k =
     match PAID !! k with
     | Some (s, t) => if expired now t then None else Some (s, t)
     | None => None
     end) /\
  (forall parsed,
     fst (fst (reward_send cfg w PAID parsed)) = cleanup_paid (time_sweep w) PAID \/
     exists k s,
       fst (fst (reward_send cfg w PAID parsed)) =
       <[k := (s, time_record w)]> (cleanup_paid (time_sweep w) PAID)) /\
  (forall body receiver to amount old ts bh sig,
     accepted cfg body receiver to amount ->
     truthy (idem_key_of body) = true ->
     PAID !! (receiver, py_str (idem_key_of body)) = Some (old, ts) ->
     expired (time_sweep w) ts = true ->
     get_latest_blockhash w = inr bh ->
     send_transaction w (build_tx cfg to (lamports_of amount) bh) = inr sig ->
     cleanup_paid (time_sweep w) PAID !! (receiver, py_str (idem_key_of body)) = None /\
     snd (fst (reward_send cfg w PAID (JDict body)))
     = [GetLatestBlockhash; SendTransaction (build_tx cfg to (lamports_of amount) bh)] /\
     fst (fst (reward_send cfg w PAID (JDict body)))
     = <[(receiver, py_str (idem_key_of body)) := (sig, time_record w)]>
         (cleanup_paid (time_sweep w) PAID)).
Proof.
  split; [intros now k; apply cleanup_paid_lookup|].
  split; [intros parsed; apply reward_send_store|].
  intros body receiver to amount old ts bh sig H Hk Hold Hexp Hbh Hsend.
  assert (cleanup_paid (time_sweep w) PAID !! (receiver, py_str (idem_key_of body)) = None)
    as Hmiss by (rewrite cleanup_paid_lookup, Hold, Hexp; reflexivity).
  split; [exact Hmiss|].
  rewrite (reward_send_miss _ _ _ _ _ _ _ H (fun _ => Hmiss)).
  rewrite Hbh. cbv zeta. rewrite Hsend, Hk. split; reflexivity.
Qed.

(** A request whose key is falsy is handled without looking at the store. *)
Lemma falsy_key_submits cfg w PAID body receiver to amount PAID' tr o :
  accepted cfg body receiver to amount ->
  truthy (idem_key_of body) = false ->
  reward_send cfg w PAID (JDict body) = (PAID', tr, o) ->
  PAID' = cleanup_paid (time_sweep w) PAID /\
  head tr = Some GetLatestBlockhash /\
  (forall bh, get_latest_blockhash w = inr bh ->
     tr = [GetLatestBlockhash;
           SendTransaction (build_tx cfg to (lamports_of amount) bh)]) /\
  (forall PAID0,
     snd (fst (reward_send cfg w PAID0 (JDict body))) = tr /\
     snd (reward_send cfg w PAID0 (JDict body)) = o).
Proof.
  intros H Hk Hrun.
  assert (forall P, truthy (idem_key_of body) = true ->
            cleanup_paid (time_sweep w) P !! (receiver, py_str (idem_key_of body)) = None)
    as Hmiss by (intros P Ht; congruence).
  destruct (miss_calls_rpc cfg w PAID body receiver to amount PAID' tr o H (Hmiss PAID) Hrun)
    as [Hhead Htr].
  rewrite (reward_send_miss _ _ _ _ _ _ _ H (Hmiss PAID)), Hk in Hrun.
  split; [|split; [exact Hhead|split; [exact Htr|]]].
  - destruct (get_latest_blockhash w) as [msg|bh]; [congruence|].
    cbv zeta in Hrun. destruct (send_transaction w _); congruence.
  - intros PAID0. rewrite (reward_send_miss _ _ _ _ _ _ _ H (Hmiss PAID0)), Hk.
    destruct (get_latest_blockhash w) as [msg|bh].
    + injection Hrun as <- <- <-. split; reflexivity.
    + cbv zeta in Hrun |- *. destruct (send_transaction w _);
        injection Hrun as <- <- <-; split; reflexivity.
Qed.

(** C7. No key, no deduplication.  An accepted request whose body has no
    [idempotency_key] goes to the RPC node whatever the store holds: the
    RPC calls and the outcome do not depend on the store, the transfer is
    sent as soon as a block hash is there, and no record is written (the
    store afterwards is the swept store). *)
Theorem keyless_request_always_submits cfg w PAID body receiver to amount PAID' tr o :
  accepted cfg body receiver to amount ->
  body !! "idempotency_key" = None ->
  reward_send cfg w PAID (JDict body) = (PAID', tr, o) ->
  PAID' = cleanup_paid (time_sweep w) PAID /\
  head tr = Some GetLatestBlockhash /\
  (forall bh, get_latest_blockhash w = inr bh ->
     tr = [GetLatestBlockhash;
           SendTransaction (build_tx cfg to (lamports_of amount) bh)]) /\
  (forall PAID0,
     snd (fst (reward_send cfg w PAID0 (JDict body))) = tr /\
     snd (reward_send cfg w PAID0 (JDict body)) = o).
Proof.
  intros H Hnone. apply (falsy_key_submits cfg w PAID body receiver to amount); [exact H|].
  unfold idem_key_of, body_get. rewrite Hnone. reflexivity.
Qed.

(** C10. A key that is there but falsy counts as no key.  With
    [idempotency_key] set to the empty string, the number 0 (integer or
    float, of either sign), [false] or [null], an accepted request is
    handled as in C7: no lookup, a fresh transfer, no record. *)
Theorem falsy_key_is_no_key cfg w PAID body receiver to amount key PAID' tr o :
  accepted cfg body receiver to amount ->
  body !! "idempotency_key" = Some key ->
  key ∈ [JStr ""; JInt 0; JFloat (S754_zero false); JFloat (S754_zero true);
         JBool false; JNull] ->
  reward_send cfg w PAID (JDict body) = (PAID', tr, o) ->
  PAID' = cleanup_paid (time_sweep w) PAID /\
  head tr = Some GetLatestBlockhash /\
  (forall bh, get_latest_blockhash w = inr bh ->
     tr = [GetLatestBlockhash;
           SendTransaction (build_tx cfg to (lamports_of amount) bh)]) /\
  (forall PAID0,
     snd (fst (reward_send cfg w PAID0 (JDict body))) = tr /\
     snd (reward_send cfg w PAID0 (JDict body)) = o).
Proof.
  intros H Hkey Hfalsy. apply (falsy_key_submits cfg w PAID body receiver to amount); [exact H|].
  unfold idem_key_of, body_get. rewrite Hkey. cbn [default from_option].
  repeat (apply elem_of_cons in Hfalsy as [->|Hfalsy]; [reflexivity|]).
  inversion Hfalsy.
Qed.

(** The default reward is parsed before the secret is looked at. *)
Lemma startup_reads_default_first (environ : gmap string string) :
  float_of_str (getenv environ "REWARD_SOL_DEFAULT" "0.01") = None ->
  startup environ = inl DefaultRewardNotAFloat.
Proof. intros H. unfold startup. rewrite H. reflexivity. Qed.

(** C9, as the code has it.  Importing [app.py] raises exactly when the
    configured default reward is no float, or the payer secret is unset or
    empty, is not base58, does not decode to 64 bytes, or is refused by
    [Keypair.from_bytes].  Otherwise the configuration holds the parsed
    default reward and the key pair built from the 64 decoded bytes. *)
Theorem startup_aborts_iff (environ : gmap string string) :
  ((exists err, startup environ = inl err) <->
   (float_of_str (getenv environ "REWARD_SOL_DEFAULT" "0.01") = None \/
    environ !! "REWARD_WALLET_SECRET_BASE58" = None \/
    exists secret, environ !! "REWARD_WALLET_SECRET_BASE58" = Some secret /\
      (secret = "" \/
       match b58decode secret with
       | None => True
       | Some bytes => length bytes <> 64%nat \/ Keypair_from_bytes bytes = None
       end))) /\
  (forall cfg, startup environ = inr cfg ->
   float_of_str (getenv environ "REWARD_SOL_DEFAULT" "0.01") = Some (REWARD_SOL_DEFAULT cfg) /\
   exists secret bytes,
     environ !! "REWARD_WALLET_SECRET_BASE58" = Some secret /\
     b58decode secret = Some bytes /\ length bytes = 64%nat /\
     Keypair_from_bytes bytes = Some (payer cfg)).
Proof.
  unfold startup.
  destruct (float_of_str _) as [reward|];
    [|split; [split; [intros _; left; reflexivity|intros _; eexists; reflexivity]
             |intros cfg [=]]].
  destruct (environ !! "REWARD_WALLET_SECRET_BASE58") as [secret|];
    [|split; [split; [intros _; right; left; reflexivity|intros _; eexists; reflexivity]
             |intros cfg [=]]].
  destruct (String.eqb secret "") eqn:Hempty.
  { apply String.eqb_eq in Hempty. split; [split|intros cfg [=]].
    - intros _. right. right. exists secret. split; [reflexivity|left; exact Hempty].
    - intros _. eexists. reflexivity. }
  apply String.eqb_neq in Hempty.
  destruct (b58decode secret) as [bytes|] eqn:Hdec.
  2:{ split; [split|intros cfg [=]].
      - intros _. right. right. exists secret. split; [reflexivity|right].
        rewrite Hdec. exact I.
      - intros _. eexists. reflexivity. }
  destruct (Nat.eqb (length bytes) 64) eqn:Hlen; cbn [negb].
  2:{ apply Nat.eqb_neq in Hlen. split; [split|intros cfg [=]].
      - intros _. right. right. exists secret. split; [reflexivity|right].
        rewrite Hdec. left. exact Hlen.
      - intros _. eexists. reflexivity. }
  apply Nat.eqb_eq in Hlen.
  destruct (Keypair_from_bytes bytes) as [kp|] eqn:Hkp.
  2:{ split; [split|intros cfg [=]].
      - intros _. right. right. exists secret. split; [reflexivity|right].
        rewrite Hdec. right. exact Hkp.
      - intros _. eexists. reflexivity. }
  split; [split|].
  - intros [err [=]].
  - intros [[=]|[[=]|(secret' & [= <-] & [->|Hbad])]]; [contradiction|].
    rewrite Hdec in Hbad. destruct Hbad as [Hbad|Hbad]; [contradiction|congruence].
  - intros cfg [= <-]. split; [reflexivity|].
    exists secret, bytes. repeat split; assumption.
Qed.

End Claims.

(** ** Workers sharing the store *)

Section Workers.
Context `{RT : Runtime}.
Implicit Types (cfg : config) (w : env) (PAID : store) (body : gmap string json).

Lemma process_step_first cfg PAID tr w t rest :
  process_step cfg
    {| proc_store := PAID; proc_trace := tr; proc_workers := (w, t) :: rest |} 0 =
  let '(PAID', ev, t') := worker_step cfg w PAID t in
  {| proc_store := PAID'; proc_trace := tr ++ ev; proc_workers := (w, t') :: rest |}.
Proof. reflexivity. Qed.






Lemma worker_finished cfg w PAID o :
  worker_step cfg w PAID (Finished o) = (PAID, [], Finished o).
Proof. reflexivity. Qed.

(** A worker that runs alone does what [reward_send] does. *)
Lemma lone_worker_is_reward_send cfg w PAID parsed :
  let s := run cfg [0; 0; 0]%nat
             {| proc_store := PAID; proc_trace := [];
                proc_workers := [(w, Arrived parsed)] |} in
  reward_send cfg w PAID parsed =
  (proc_store s, proc_trace s, default (Raises AttributeError) (result_of s 0)) /\
  is_Some (result_of s 0).
Proof.
  cbv zeta. rewrite reward_send_steps. unfold run. cbn [foldl].
  rewrite process_step_first. unfold worker_step.
  destruct (check_request cfg (time_sweep w) PAID parsed) as [PAID1 [o|p]].
  { rewrite !process_step_first, !worker_finished. cbn.
    split; [reflexivity|eexists; reflexivity]. }
  rewrite process_step_first. unfold worker_step.
  destruct (submit_transfer cfg w p) as [tr [o|sig]].
  { rewrite !process_step_first, !worker_finished. cbn.
    rewrite app_nil_r. split; [reflexivity|eexists; reflexivity]. }
  rewrite process_step_first. unfold worker_step.
  destruct (record_payment cfg (time_record w) PAID1 p sig) as [PAID2 o]. cbn.
  rewrite app_nil_r. split; [reflexivity|eexists; reflexivity].
Qed.



End Workers.

(** * The claims on the worked deployment *)

Lemma demo_accepted key :
  @accepted reference_runtime demo_cfg (demo_body key) demo_receiver demo_to quarter.
Proof. split; try reflexivity. discriminate. Qed.

Lemma demo_accepted_keyless :
  @accepted reference_runtime demo_cfg demo_body_keyless demo_receiver demo_to quarter.
Proof. split; try reflexivity. discriminate. Qed.

Lemma demo_startup : @startup reference_runtime demo_environ = inr demo_cfg.
Proof. reflexivity. Qed.

(** The key 7 and the key "7" have the same text: the second request
    finds the record of the first and calls no RPC node. *)
Lemma replay_is_short_circuited_witness :
  let '(PAID1, tr1, o1) :=
    @reward_send reference_runtime demo_cfg (demo_env 1000 "sig-1") ∅
      (JDict (demo_body (JInt 7))) in
  let '(PAID2, tr2, o2) :=
    @reward_send reference_runtime demo_cfg (demo_env 2000 "sig-2") PAID1
      (JDict (demo_body (JStr "7"))) in
  tr1 = [GetLatestBlockhash;
         SendTransaction (@build_tx reference_runtime demo_cfg demo_to
                            (lamports_of quarter) "blockhash")] /\
  PAID1 !! (demo_receiver, "7") = Some (Sig "sig-1", float_of_const 1000) /\
  @cleanup_paid (float_of_const 2000) PAID1 !! (demo_receiver, "7")
  = Some (Sig "sig-1", float_of_const 1000) /\
  tr2 = [] /\
  PAID2 = @cleanup_paid (float_of_const 2000) PAID1 /\
  submissions (tr1 ++ tr2) = 1%nat.
Proof.
  apply (@replay_is_short_circuited reference_runtime demo_cfg
           (demo_env 1000 "sig-1") (demo_env 2000 "sig-2") ∅
           (demo_body (JInt 7)) (demo_body (JStr "7"))
           demo_receiver demo_to quarter quarter "blockhash" (Sig "sig-1")
           (demo_accepted (JInt 7)) (demo_accepted (JStr "7")));
    reflexivity.
Defined.

(** The key 0 is a key the request carries, and it is falsy: the same
    request sent twice is paid twice, under two signatures. *)
Lemma falsy_key_replay_pays_twice :
  let r1 := @reward_send reference_runtime demo_cfg (demo_env 1000 "sig-1") ∅
              (JDict (demo_body (JInt 0))) in
  let r2 := @reward_send reference_runtime demo_cfg (demo_env 1001 "sig-2") (fst (fst r1))
              (JDict (demo_body (JInt 0))) in
  demo_body (JInt 0) !! "idempotency_key" = Some (JInt 0) /\
  snd (fst r2)
  = [GetLatestBlockhash;
     SendTransaction (@build_tx reference_runtime demo_cfg demo_to 250000000 "blockhash")] /\
  submissions (snd (fst r1) ++ snd (fst r2)) = 2%nat /\
  @payments_of reference_runtime (demo_env 1000 "sig-1") (snd (fst r1)) = [Sig "sig-1"] /\
  @payments_of reference_runtime (demo_env 1001 "sig-2") (snd (fst r2)) = [Sig "sig-2"].
Proof. cbv zeta. repeat split; reflexivity. Qed.

Lemma failed_submission_leaves_no_record_witness :
  let r := @reward_send reference_runtime demo_cfg (demo_env_down 1000) ∅
             (JDict (demo_body (JStr "abc"))) in
  snd r = Returns {| status := 500;
                     payload := [("ok", JBool false);
                                 ("error", JStr "connection refused")] |} /\
  fst (fst r) = @cleanup_paid (float_of_const 1000) ∅ /\
  head (snd (fst (@reward_send reference_runtime demo_cfg (demo_env 1001 "sig-2")
                    (fst (fst r)) (JDict (demo_body (JStr "abc"))))))
  = Some GetLatestBlockhash.
Proof.
  cbv zeta.
  destruct (@reward_send reference_runtime demo_cfg (demo_env_down 1000) ∅
              (JDict (demo_body (JStr "abc")))) as [[PAID1 tr1] o1] eqn:Hrun.
  cbn [fst snd].
  destruct (@failed_submission_leaves_no_record reference_runtime demo_cfg
              (demo_env_down 1000) ∅ (demo_body (JStr "abc")) demo_receiver demo_to
              quarter "connection refused" PAID1 tr1 o1 (demo_accepted (JStr "abc")))
    as (Ho & Hs & Hretry); [reflexivity|left; reflexivity|exact Hrun|].
  split; [exact Ho|]. split; [exact Hs|].
  destruct (@reward_send reference_runtime demo_cfg (demo_env 1001 "sig-2") PAID1
              (JDict (demo_body (JStr "abc")))) as [[PAID2 tr2] o2] eqn:Hagain.
  cbn [fst snd]. exact (proj1 (Hretry _ _ _ _ Hagain)).
Defined.

(** The record of second 0 is older than seven days at second 1000000. *)
Lemma sweep_purges_expired_records_witness :
  @cleanup_paid (float_of_const 1000000) demo_store !! (demo_receiver, "abc") = None /\
  snd (fst (@reward_send reference_runtime demo_cfg (demo_env 1000000 "sig-2") demo_store
              (JDict (demo_body (JStr "abc")))))
  = [GetLatestBlockhash;
     SendTransaction (@build_tx reference_runtime demo_cfg demo_to
                        (lamports_of quarter) "blockhash")] /\
  fst (fst (@reward_send reference_runtime demo_cfg (demo_env 1000000 "sig-2") demo_store
              (JDict (demo_body (JStr "abc")))))
  = <[(demo_receiver, "abc") := (Sig "sig-2", float_of_const 1000000)]>
      (@cleanup_paid (float_of_const 1000000) demo_store).
Proof.
  apply (proj2 (proj2 (@sweep_purges_expired_records reference_runtime demo_cfg
                         (demo_env 1000000 "sig-2") demo_store))
           (demo_body (JStr "abc")) demo_receiver demo_to quarter
           (Sig "old-signature") (float_of_const 0) "blockhash" (Sig "sig-2")
           (demo_accepted (JStr "abc")));
    reflexivity.
Defined.

Lemma rejected_request_only_sweeps_witness :
  let r := @reward_send reference_runtime demo_cfg (demo_env 1000000 "sig") demo_store
             (JDict demo_body_no_receiver) in
  status_of (snd r) = Some 400 /\
  snd (fst r) = [] /\
  fst (fst r) = @cleanup_paid (float_of_const 1000000) demo_store.
Proof.
  cbv zeta.
  destruct (@reward_send reference_runtime demo_cfg (demo_env 1000000 "sig") demo_store
              (JDict demo_body_no_receiver)) as [[PAID' tr] o] eqn:Hrun.
  cbn [fst snd].
  destruct (@rejected_request_only_sweeps reference_runtime demo_cfg
              (demo_env 1000000 "sig") demo_store (JDict demo_body_no_receiver)
              demo_body_no_receiver PAID' tr o eq_refl Hrun) as [Hiff Hfx].
  assert (@rejected reference_runtime demo_cfg demo_body_no_receiver) as Hr
    by (left; reflexivity).
  destruct (Hfx Hr) as (Htr & Hs & _).
  split; [exact (proj1 Hiff Hr)|]. split; assumption.
Defined.

(** The rejected request of the witness, seen from the store: the record
    that was there when the request arrived is gone when it is answered. *)
Lemma rejected_request_changes_store :
  let r := @reward_send reference_runtime demo_cfg (demo_env 1000000 "sig") demo_store
             (JDict demo_body_no_receiver) in
  status_of (snd r) = Some 400 /\
  snd (fst r) = [] /\
  demo_store !! (demo_receiver, "abc") = Some (Sig "old-signature", float_of_const 0) /\
  fst (fst r) !! (demo_receiver, "abc") = None /\
  fst (fst r) <> demo_store.
Proof.
  cbv zeta. repeat split; try reflexivity.
  intros H.
  assert (demo_store !! (demo_receiver, "abc") = None) as Hgone
    by (rewrite <- H; reflexivity).
  assert (demo_store !! (demo_receiver, "abc") = Some (Sig "old-signature", float_of_const 0))
    as Hthere by reflexivity.
  rewrite Hthere in Hgone. discriminate Hgone.
Qed.

Lemma keyless_request_always_submits_witness :
  let r := @reward_send reference_runtime demo_cfg (demo_env 1000 "sig-9") demo_store
             (JDict demo_body_keyless) in
  fst (fst r) = @cleanup_paid (float_of_const 1000) demo_store /\
  snd (fst r)
  = [GetLatestBlockhash;
     SendTransaction (@build_tx reference_runtime demo_cfg demo_to
                        (lamports_of quarter) "blockhash")] /\
  snd (fst (@reward_send reference_runtime demo_cfg (demo_env 1000 "sig-9") ∅
              (JDict demo_body_keyless))) = snd (fst r).
Proof.
  cbv zeta.
  destruct (@reward_send reference_runtime demo_cfg (demo_env 1000 "sig-9") demo_store
              (JDict demo_body_keyless)) as [[PAID' tr] o] eqn:Hrun.
  cbn [fst snd].
  destruct (@keyless_request_always_submits reference_runtime demo_cfg
              (demo_env 1000 "sig-9") demo_store demo_body_keyless demo_receiver demo_to
              quarter PAID' tr o demo_accepted_keyless eq_refl Hrun)
    as (Hs & _ & Htr & Hany).
  split; [exact Hs|]. split; [apply (Htr "blockhash"); reflexivity|].
  exact (proj1 (Hany ∅)).
Defined.

Lemma falsy_key_is_no_key_witness :
  let r := @reward_send reference_runtime demo_cfg (demo_env 1000 "sig-9") demo_store
             (JDict (demo_body (JStr ""))) in
  fst (fst r) = @cleanup_paid (float_of_const 1000) demo_store /\
  snd (fst r)
  = [GetLatestBlockhash;
     SendTransaction (@build_tx reference_runtime demo_cfg demo_to
                        (lamports_of quarter) "blockhash")] /\
  snd (fst (@reward_send reference_runtime demo_cfg (demo_env 1000 "sig-9") ∅
              (JDict (demo_body (JStr ""))))) = snd (fst r).
Proof.
  cbv zeta.
  destruct (@reward_send reference_runtime demo_cfg (demo_env 1000 "sig-9") demo_store
              (JDict (demo_body (JStr "")))) as [[PAID' tr] o] eqn:Hrun.
  cbn [fst snd].
  destruct (@falsy_key_is_no_key reference_runtime demo_cfg
              (demo_env 1000 "sig-9") demo_store (demo_body (JStr "")) demo_receiver
              demo_to quarter (JStr "") PAID' tr o (demo_accepted (JStr "")) eq_refl
              ltac:(apply list_elem_of_here) Hrun)
    as (Hs & _ & Htr & Hany).
  split; [exact Hs|]. split; [apply (Htr "blockhash"); reflexivity|].
  exact (proj1 (Hany ∅)).
Defined.

(** C8, where the code departs from it.  The signature the RPC client
    returns is a [Signature] object, and the handler puts it into the
    dictionary for [jsonify] as it is, on the fresh payment (line 137)
    and on the short-circuit (line 104).  [jsonify] raises [TypeError] on
    it: the transfer has been sent and the record written, and neither of
    the two success responses is ever returned. *)
Theorem success_responses_raise_type_error :
  json_default (PSignature (Sig "sig-1")) = inl TypeError /\
  (let r := @reward_send reference_runtime demo_cfg (demo_env 1000 "sig-1") ∅
              (JDict (demo_body (JStr "abc"))) in
   snd (fst r)
   = [GetLatestBlockhash;
      SendTransaction (@build_tx reference_runtime demo_cfg demo_to 250000000 "blockhash")] /\
   fst (fst r) !! (demo_receiver, "abc") = Some (Sig "sig-1", float_of_const 1000) /\
   snd r = Raises TypeError /\
   @reward_send reference_runtime demo_cfg (demo_env 1001 "sig-2") (fst (fst r))
     (JDict (demo_body (JStr "abc")))
   = (@cleanup_paid (float_of_const 1001) (fst (fst r)), [], Raises TypeError)) /\
  snd (@reward_send reference_runtime demo_cfg (demo_env 1000 "sig-1") ∅
         (JDict demo_body_keyless)) = Raises TypeError.
Proof. cbv zeta. repeat split; reflexivity. Qed.

Lemma startup_aborts_iff_witness :
  @float_of_str reference_runtime (getenv demo_environ "REWARD_SOL_DEFAULT" "0.01")
  = Some (@REWARD_SOL_DEFAULT reference_runtime demo_cfg) /\
  exists secret bytes,
    demo_environ !! "REWARD_WALLET_SECRET_BASE58" = Some secret /\
    @b58decode reference_runtime secret = Some bytes /\
    length bytes = 64%nat /\
    @Keypair_from_bytes reference_runtime bytes
    = Some (@payer reference_runtime demo_cfg).
Proof.
  exact (proj2 (@startup_aborts_iff reference_runtime demo_environ) demo_cfg demo_startup).
Defined.

(** The secret is set and decodes to a 64-byte key pair, and the import
    still raises: the default reward is the text [abc]. *)
Lemma startup_aborts_with_good_secret :
  demo_environ_bad_default !! "REWARD_WALLET_SECRET_BASE58" = Some demo_secret /\
  @b58decode reference_runtime demo_secret = Some (repeat Byte.x00 64) /\
  length (repeat Byte.x00 64) = 64%nat /\
  @Keypair_from_bytes reference_runtime (repeat Byte.x00 64)
  = Some (repeat Byte.x00 64 : @Keypair reference_runtime) /\
  @startup reference_runtime demo_environ_bad_default = inl DefaultRewardNotAFloat.
Proof. repeat split; reflexivity. Qed.

(** C3, where the code departs from it.  The amount [nan] (as the text
    "nan" or as the JSON literal NaN) is a float that passes the range test,
    since every comparison with NaN is false.  The request is not answered
    400: [int()] raises [ValueError] outside any [try], or, when the key
    has a live record, the request reaches the short-circuit and its
    [jsonify]. *)
Theorem nan_amount_passes_validation :
  @py_float reference_runtime (JStr "nan") = Some S754_nan /\
  fle S754_nan fzero || fgt S754_nan fhalf = false /\
  @reward_send reference_runtime demo_cfg (demo_env 1000 "sig") ∅ (JDict nan_body)
  = (∅, [], Raises ValueError) /\
  @reward_send reference_runtime demo_cfg (demo_env 1000 "sig") ∅
    (JDict (<["amount_sol" := JFloat S754_nan]> nan_body))
  = (∅, [], Raises ValueError) /\
  @reward_send reference_runtime demo_cfg (demo_env 1000 "sig") demo_store
    (JDict nan_body_keyed)
  = (demo_store, [], Raises TypeError).
Proof. repeat split; reflexivity. Qed.



(** * Further properties of the store and the handler *)

Section StoreFacts.
Implicit Types (PAID : store) (now : float) (k : string * string).

(** X1. The loop of [cleanup_paid] is a filter: it keeps exactly the
    records that are not older than the retention window. *)
Theorem cleanup_paid_is_filter now PAID :
  cleanup_paid now PAID =
  filter (fun kv : (string * string) * (Signature * float) =>
            expired now (snd (snd kv)) = false) PAID.
Proof.
  apply map_eq. intros k. rewrite cleanup_paid_lookup, map_lookup_filter.
  destruct (PAID !! k) as [[sig ts]|]; [|reflexivity].
  cbn [mbind option_bind snd]. destruct (expired now ts) eqn:He.
  - rewrite option_guard_False; [reflexivity|discriminate].
  - rewrite option_guard_True; reflexivity.
Qed.

(** X2. The sweep only removes: what it leaves is part of what was there,
    nothing it leaves is expired, and sweeping again at the same instant
    changes nothing. *)
Theorem cleanup_paid_only_removes now PAID :
  cleanup_paid now PAID ⊆ PAID /\
  (forall k sig ts, cleanup_paid now PAID !! k = Some (sig, ts) -> expired now ts = false) /\
  cleanup_paid now (cleanup_paid now PAID) = cleanup_paid now PAID.
Proof.
  assert (forall k sig ts, cleanup_paid now PAID !! k = Some (sig, ts) ->
            PAID !! k = Some (sig, ts) /\ expired now ts = false) as Hkept.
  { intros k sig ts. rewrite cleanup_paid_lookup.
    destruct (PAID !! k) as [[sig' ts']|]; [|discriminate].
    destruct (expired now ts') eqn:He; [discriminate|].
    intros [= <- <-]. split; [reflexivity|exact He]. }
  split; [|split].
  - apply map_subseteq_spec. intros k [sig ts] Hk. apply (Hkept k sig ts Hk).
  - intros k sig ts Hk. apply (Hkept k sig ts Hk).
  - apply map_eq. intros k. rewrite (cleanup_paid_lookup now (cleanup_paid now PAID)).
    destruct (cleanup_paid now PAID !! k) as [[sig ts]|] eqn:Hk; [|reflexivity].
    cbv beta iota. destruct (Hkept k sig ts Hk) as [_ ->]. reflexivity.
Qed.

End StoreFacts.

Section LamportsSign.

Lemma binary_round_aux_sign s mx ex lx :
  0 <= mx ->
  match binary_round_aux prec emax s mx ex lx with
  | S754_zero s' | S754_infinity s' | S754_finite s' _ _ => s' = s
  | S754_nan => False
  end.
Proof.
  intros Hmx. unfold binary_round_aux.
  pose proof (shr_fexp_bounds mx ex lx Hmx) as [Hm1 _].
  destruct (shr_fexp prec emax mx ex lx) as [mrs1 e1]. cbn [fst snd] in Hm1.
  set (m2 := round_nearest_even (shr_m mrs1) (loc_of_shr_record mrs1)).
  pose proof (round_nearest_even_bounds (shr_m mrs1) (loc_of_shr_record mrs1)
                ltac:(lia)) as Hm2. fold m2 in Hm2.
  pose proof (shr_fexp_bounds m2 e1 loc_Exact ltac:(lia)) as [Hm3 _].
  destruct (shr_fexp prec emax m2 e1 loc_Exact) as [mrs3 e3]. cbn [fst snd] in Hm3.
  destruct (shr_m mrs3) as [|p|p]; [reflexivity| |lia].
  destruct (e3 <=? emax - prec); reflexivity.
Qed.

Lemma py_int_nonneg x n :
  match x with S754_finite true _ _ => False | _ => True end ->
  py_int x = inr n -> 0 <= n.
Proof.
  destruct x as [s|s| |s m e]; cbn [py_int]; try discriminate.
  - intros _ [= <-]. lia.
  - destruct s; [contradiction|]. intros _ [= <-].
    destruct (0 <=? e); [apply Z.shiftl_nonneg|apply Z.shiftr_nonneg]; lia.
Qed.

(** An amount that passes the range test converts to no negative number
    of lamports. *)
Lemma lamports_nonneg a n :
  fle a fzero || fgt a fhalf = false -> to_lamports a = inr n -> 0 <= n.
Proof.
  unfold to_lamports. rewrite lamports_per_sol_double.
  unfold fle, fgt, SFleb, SFltb, fzero, fhalf, fmul.
  destruct a as [s|s| |s m e]; unfold SFcompare, SFmul; cbv beta iota delta [orb].
  - discriminate.
  - destruct s; discriminate.
  - discriminate.
  - destruct s; [discriminate|]. intros _. cbn [xorb].
    apply py_int_nonneg.
    pose proof (binary_round_aux_sign false (Zpos (m * 8388608000000000)) (e + -23)
                  loc_Exact ltac:(lia)) as Hs.
    destruct (binary_round_aux _ _ _ _ _ _) as [s'|s'| |s' m' e']; try exact I.
    subst s'. exact I.
Qed.

End LamportsSign.

Section HandlerInvariants.
Context `{RT : Runtime}.
Implicit Types (cfg : config) (w : env) (PAID : store) (body : gmap string json).


(** X4. What one request sends.  A request calls the RPC node not at all,
    or fetches a block hash and fails there (answer 500), or fetches a
    block hash and sends exactly one transfer.  That transfer is paid and
    signed by the payer, goes to the key the receiver field parses to,
    carries the block hash just fetched, and its amount is the lamports of
    the validated amount and is not negative. *)
Theorem reward_send_sends_at_most_once cfg w PAID parsed :
  let '(PAID', tr, o) := reward_send cfg w PAID parsed in
  tr = [] \/
  (tr = [GetLatestBlockhash] /\ status_of o = Some 500) \/
  exists tx body receiver amount bh,
    tr = [GetLatestBlockhash; SendTransaction tx] /\
    request_body parsed = inr body /\
    body !! "receiver_wallet_address" = Some (JStr receiver) /\
    Pubkey_from_string receiver = Some (to_pubkey tx) /\
    py_float (body_get body "amount_sol" (JFloat (REWARD_SOL_DEFAULT cfg))) = Some amount /\
    to_lamports amount = inr (lamports tx) /\
    0 <= lamports tx /\
    get_latest_blockhash w = inr bh /\
    recent_blockhash tx = bh /\
    from_pubkey tx = payer_pubkey cfg /\
    fee_payer tx = payer_pubkey cfg /\
    signer tx = payer cfg.
Proof.
  unfold reward_send.
  destruct (request_body parsed) as [e|body]; [left; reflexivity|].
  cbv zeta.
  destruct (negb _); [left; reflexivity|].
  destruct (py_float _) as [a|] eqn:Ha; [|left; reflexivity].
  destruct (fle a fzero || fgt a fhalf) eqn:Hrange; [left; reflexivity|].
  destruct (parse_receiver _) as [[receiver_s to]|] eqn:Hp; [|left; reflexivity].
  destruct (if truthy _ then _ else _) as [[sig ts]|]; [left; reflexivity|].
  destruct (to_lamports a) as [e|n] eqn:Hn; [left; reflexivity|].
  destruct (get_latest_blockhash w) as [msg|bh]; [right; left; split; reflexivity|].
  assert (body !! "receiver_wallet_address" = Some (JStr receiver_s) /\
          Pubkey_from_string receiver_s = Some to) as [Hr Hto].
  { unfold body_get in Hp.
    destruct (body !! "receiver_wallet_address") as [[| | | |r| |]|];
      cbn [default from_option id parse_receiver] in Hp; try discriminate Hp.
    destruct (Pubkey_from_string r) eqn:Hk;
      cbn [fmap option_fmap option_map] in Hp; [|discriminate Hp].
    injection Hp as <- <-. split; [reflexivity|exact Hk]. }
  assert (0 <= n) as Hpos by (eapply lamports_nonneg; eassumption).
  destruct (send_transaction w _) as [msg|sig];
    right; right; exists (build_tx cfg to n bh), body, receiver_s, a, bh;
    repeat split; assumption.
Qed.

End HandlerInvariants.

Section HandlerEdges.
Context `{RT : Runtime}.
Implicit Types (cfg : config) (w : env) (PAID : store) (body : gmap string json).

(** A JSON object is its own body: the empty object is falsy and is
    replaced by the empty dictionary. *)
Lemma request_body_dict body : request_body (JDict body) = inr body.
Proof.
  unfold request_body. cbn [truthy].
  destruct (Nat.eqb (size body) 0) eqn:Hs; [|reflexivity].
  apply Nat.eqb_eq, map_size_empty_inv in Hs. subst body. reflexivity.
Qed.

(** X5. A body that is no JSON object.  When the parsed body is falsy
    ([null], [false], 0, the empty string, list or object) the handler
    goes on with an empty dictionary and answers 400 for the missing
    receiver; when it is truthy but no object, the first [body.get]
    raises [AttributeError].  Either way the store has been swept and no
    RPC call is made. *)
Theorem body_that_is_no_object cfg w PAID parsed :
  match parsed with JDict d => d = ∅ | _ => True end ->
  reward_send cfg w PAID parsed =
  (cleanup_paid (time_sweep w) PAID, [],
   if truthy parsed then Raises AttributeError
   else Returns {| status := 400;
                   payload := [("ok", JBool false);
                               ("error", JStr "Missing receiver_wallet_address")] |}).
Proof.
  intros Hshape. unfold reward_send.
  assert (request_body parsed =
          if truthy parsed then inl AttributeError else inr ∅) as ->.
  { unfold request_body. destruct parsed; try reflexivity.
    subst d. reflexivity. }
  destruct (truthy parsed); [reflexivity|].
  cbv zeta. unfold body_get. rewrite lookup_empty. reflexivity.
Qed.

(** X6. Validation of the amount.  For a request with a receiver: an
    amount that [float()] refuses is answered 400 "Invalid amount_sol";
    an amount that is a float other than NaN is answered 400
    "amount_sol out of range" exactly when it is not in (0, 0.5]. *)
Theorem amount_validation cfg w PAID parsed body :
  request_body parsed = inr body ->
  truthy (body_get body "receiver_wallet_address" JNull) = true ->
  (py_float (body_get body "amount_sol" (JFloat (REWARD_SOL_DEFAULT cfg))) = None ->
   reward_send cfg w PAID parsed =
   (cleanup_paid (time_sweep w) PAID, [],
    Returns {| status := 400;
               payload := [("ok", JBool false); ("error", JStr "Invalid amount_sol")] |})) /\
  (forall a,
     py_float (body_get body "amount_sol" (JFloat (REWARD_SOL_DEFAULT cfg))) = Some a ->
     a <> S754_nan ->
     (flt fzero a && fle a fhalf = false <->
      reward_send cfg w PAID parsed =
      (cleanup_paid (time_sweep w) PAID, [],
       Returns {| status := 400;
                  payload := [("ok", JBool false);
                              ("error", JStr "amount_sol out of range")] |}))).
Proof.
  intros Hb Hr. unfold reward_send. rewrite Hb. cbv zeta. rewrite Hr. cbn [negb].
  split.
  - intros ->. reflexivity.
  - intros a -> Hnan.
    pose proof (range_test_spec a Hnan) as Hspec.
    destruct (fle a fzero || fgt a fhalf) eqn:Hrange.
    + split; [reflexivity|]. intros _.
      destruct (flt fzero a) eqn:H0; [|reflexivity].
      destruct (fle a fhalf) eqn:H1; [|reflexivity].
      discriminate (proj2 Hspec (conj eq_refl eq_refl)).
    + destruct (proj1 Hspec eq_refl) as [-> ->]. cbn [andb].
      split; [discriminate|].
      destruct (parse_receiver _) as [[receiver_s to]|]; [|discriminate].
      destruct (if truthy _ then _ else _) as [[sig ts]|]; [discriminate|].
      destruct (to_lamports a) as [e|n]; [discriminate|].
      destruct (get_latest_blockhash w) as [msg|bh]; [discriminate|].
      destruct (send_transaction w _) as [msg|sig]; discriminate.
Qed.

(** X7. An amount left out is the default amount: a request without
    [amount_sol] is handled exactly as the same request with
    [amount_sol] set to [REWARD_SOL_DEFAULT]. *)
Theorem omitted_amount_is_default cfg w PAID body :
  body !! "amount_sol" = None ->
  reward_send cfg w PAID (JDict body) =
  reward_send cfg w PAID (JDict (<["amount_sol" := JFloat (REWARD_SOL_DEFAULT cfg)]> body)).
Proof.
  intros Hnone. unfold reward_send. rewrite !request_body_dict. cbv zeta.
  unfold body_get.
  rewrite lookup_insert_eq, Hnone.
  rewrite !(lookup_insert_ne body "amount_sol") by discriminate.
  reflexivity.
Qed.

(** X8. [GET /health] after start-up reports the RPC URL of the
    environment, or the devnet URL when none is set, and the default
    reward parsed from the environment, or from the text 0.01 when none is
    set. *)
Theorem health_reports_environment (environ : gmap string string) cfg :
  startup environ = inr cfg ->
  field "rpc" (health cfg)
  = Some (JStr (default "https://api.devnet.solana.com" (environ !! "SOLANA_RPC_URL"))) /\
  JFloat <$> float_of_str (default "0.01" (environ !! "REWARD_SOL_DEFAULT"))
  = field "default_reward_sol" (health cfg) /\
  status_of (health cfg) = Some 200.
Proof.
  unfold startup, getenv.
  destruct (float_of_str _) as [reward|]; [|discriminate].
  destruct (environ !! "REWARD_WALLET_SECRET_BASE58") as [secret|]; [|discriminate].
  destruct (String.eqb secret ""); [discriminate|].
  destruct (b58decode secret) as [bytes|]; [|discriminate].
  destruct (negb _); [discriminate|].
  destruct (Keypair_from_bytes bytes) as [kp|]; [|discriminate].
  intros [= <-]. repeat split.
Qed.

(** X9. [GET /health] and the transfers agree: every transfer sent is
    paid from the wallet that [/health] names as [from_wallet], and the
    transfer for a request without [amount_sol] carries the lamports of
    the amount that [/health] reports as [default_reward_sol]. *)
Theorem health_matches_transfers cfg w PAID parsed tx :
  SendTransaction tx ∈ snd (fst (reward_send cfg w PAID parsed)) ->
  field "from_wallet" (health cfg) = Some (JStr (Pubkey_str (from_pubkey tx))) /\
  (forall body, request_body parsed = inr body -> body !! "amount_sol" = None ->
     exists d,
       field "default_reward_sol" (health cfg) = Some (JFloat d) /\
       to_lamports d = inr (lamports tx)).
Proof.
  unfold reward_send.
  destruct (request_body parsed) as [e|body]; [intros []%elem_of_nil|].
  cbv zeta.
  destruct (negb _); [intros []%elem_of_nil|].
  destruct (py_float _) as [a|] eqn:Ha; [|intros []%elem_of_nil].
  destruct (fle a fzero || fgt a fhalf); [intros []%elem_of_nil|].
  destruct (parse_receiver _) as [[receiver_s to]|]; [|intros []%elem_of_nil].
  destruct (if truthy _ then _ else _) as [[sig ts]|]; [intros []%elem_of_nil|].
  destruct (to_lamports a) as [e|n] eqn:Hn; [intros []%elem_of_nil|].
  destruct (get_latest_blockhash w) as [msg|bh].
  { cbn [fst snd]. intros [Heq|[]%elem_of_nil]%elem_of_cons. discriminate Heq. }
  assert (SendTransaction tx ∈ [GetLatestBlockhash; SendTransaction (build_tx cfg to n bh)]
          -> tx = build_tx cfg to n bh) as Hsent.
  { intros [Heq|[Heq|[]%elem_of_nil]%elem_of_cons]%elem_of_cons; [discriminate Heq|].
    injection Heq as ->. reflexivity. }
  intros Hin.
  assert (tx = build_tx cfg to n bh) as ->
    by (destruct (send_transaction w _); exact (Hsent Hin)).
  split; [reflexivity|].
  intros body' [= <-] Hnone. exists (REWARD_SOL_DEFAULT cfg). split; [reflexivity|].
  unfold body_get in Ha. rewrite Hnone in Ha.
  cbn [default from_option id py_float] in Ha. injection Ha as <-. exact Hn.
Qed.

(** X10. What makes the handler raise.  When every amount that
    [float()] yields is a well-formed double, an exception leaves
    [reward_send] only in three cases: the body is truthy but no JSON
    object ([AttributeError]); the amount is NaN ([ValueError] from
    [int()]); or [jsonify] has been handed the signature ([TypeError]),
    which happens on the short-circuit, when the key has a live record,
    and after a transfer that the RPC node accepted.  In particular
    [int()] never overflows. *)
Theorem handler_raises_in_three_cases cfg w PAID parsed e :
  (forall body a,
     request_body parsed = inr body ->
     py_float (body_get body "amount_sol" (JFloat (REWARD_SOL_DEFAULT cfg))) = Some a ->
     valid_binary prec emax a = true) ->
  snd (reward_send cfg w PAID parsed) = Raises e ->
  (e = AttributeError /\ request_body parsed = inl AttributeError) \/
  (e = ValueError /\
   exists body,
     request_body parsed = inr body /\
     py_float (body_get body "amount_sol" (JFloat (REWARD_SOL_DEFAULT cfg)))
     = Some S754_nan) \/
  (e = TypeError /\
   ((snd (fst (reward_send cfg w PAID parsed)) = [] /\
     exists body receiver sig ts,
       request_body parsed = inr body /\
       body !! "receiver_wallet_address" = Some (JStr receiver) /\
       truthy (idem_key_of body) = true /\
       cleanup_paid (time_sweep w) PAID !! (receiver, py_str (idem_key_of body))
       = Some (sig, ts)) \/
    (exists tx sig,
       snd (fst (reward_send cfg w PAID parsed))
       = [GetLatestBlockhash; SendTransaction tx] /\
       send_transaction w tx = inr sig))).
Proof.
  intros Hvalid. unfold reward_send.
  destruct (request_body parsed) as [e'|body] eqn:Hb.
  { intros [= <-]. left. unfold request_body in Hb.
    destruct (truthy parsed); [|discriminate Hb].
    destruct parsed; try discriminate Hb; injection Hb as <-; split; reflexivity. }
  cbv zeta.
  destruct (negb _); [discriminate|].
  destruct (py_float _) as [a|] eqn:Ha; [|discriminate].
  destruct (fle a fzero || fgt a fhalf) eqn:Hrange; [discriminate|].
  destruct (parse_receiver _) as [[receiver_s to]|] eqn:Hp; [|discriminate].
  destruct (if truthy _ then _ else _) as [[sig ts]|] eqn:Hlook.
  { intros [= <-]. right. right. split; [reflexivity|]. left. split; [reflexivity|].
    exists body, receiver_s, sig, ts. split; [reflexivity|].
    unfold idem_key_of.
    destruct (truthy (body_get body "idempotency_key" JNull)); [|discriminate Hlook].
    split; [|split; [reflexivity|exact Hlook]].
    unfold body_get in Hp.
    destruct (body !! "receiver_wallet_address") as [[| | | |r| |]|];
      cbn [default from_option id parse_receiver] in Hp; try discriminate Hp.
    destruct (Pubkey_from_string r);
      cbn [fmap option_fmap option_map] in Hp; [|discriminate Hp].
    injection Hp as <- <-. reflexivity. }
  destruct (to_lamports a) as [e'|n] eqn:Hn.
  2:{ destruct (get_latest_blockhash w) as [msg|bh]; [discriminate|].
      destruct (send_transaction w _) as [msg|sig] eqn:Hsend; [discriminate|].
      intros [= <-]. right. right. split; [reflexivity|]. right.
      exists (build_tx cfg to n bh), sig. split; [reflexivity|exact Hsend]. }
  intros [= <-]. right. left.
  assert (a = S754_nan) as ->.
  { destruct a as [s|s| |s m x]; [ | |reflexivity| ].
    all: match goal with
         | |- ?f = S754_nan =>
             assert (f <> S754_nan) as Hnan by discriminate;
             destruct (proj1 (range_test_spec f Hnan) Hrange) as [H0 H1];
             destruct (lamports_defined f (Hvalid body f eq_refl Ha) H0 H1) as [n Hn'];
             rewrite Hn' in Hn; discriminate Hn
         end. }
  split; [|exists body; split; [reflexivity|exact Ha]].
  unfold to_lamports in Hn. rewrite lamports_per_sol_double in Hn.
  injection Hn as <-. reflexivity.
Qed.

(** X11. What an answer 500 means.  It is given only after an RPC call has
    failed: the fetch of the block hash, or the one transfer that was
    sent.  The error text is the text of that failure, and the store is
    the swept store: nothing has been recorded. *)
Theorem server_error_means_rpc_failure cfg w PAID parsed :
  let '(PAID', tr, o) := reward_send cfg w PAID parsed in
  status_of o = Some 500 ->
  PAID' = cleanup_paid (time_sweep w) PAID /\
  exists msg,
    o = Returns {| status := 500;
                   payload := [("ok", JBool false); ("error", JStr msg)] |} /\
    ((get_latest_blockhash w = inl msg /\ tr = [GetLatestBlockhash]) \/
     (exists bh tx,
        get_latest_blockhash w = inr bh /\ send_transaction w tx = inl msg /\
        tr = [GetLatestBlockhash; SendTransaction tx])).
Proof.
  unfold reward_send.
  destruct (request_body parsed) as [e|body]; [discriminate|].
  cbv zeta.
  destruct (negb _); [discriminate|].
  destruct (py_float _) as [a|]; [|discriminate].
  destruct (fle a fzero || fgt a fhalf); [discriminate|].
  destruct (parse_receiver _) as [[receiver_s to]|]; [|discriminate].
  destruct (if truthy _ then _ else _) as [[sig ts]|]; [discriminate|].
  destruct (to_lamports a) as [e|n]; [discriminate|].
  destruct (get_latest_blockhash w) as [msg|bh].
  { intros _. split; [reflexivity|]. exists msg. split; [reflexivity|].
    left. split; reflexivity. }
  destruct (send_transaction w _) as [msg|sig] eqn:Hsend; [|discriminate].
  intros _. split; [reflexivity|]. exists msg. split; [reflexivity|].
  right. eexists _, _. repeat split. exact Hsend.
Qed.

End HandlerEdges.

Section Retries.
Context `{RT : Runtime}.
Implicit Types (cfg : config) (w : env) (PAID : store) (reqs : list (env * json)).

(** The payments of a request that fetched a block hash and sent [tx]. *)
Lemma payments_of_sent w tx :
  payments_of w [GetLatestBlockhash; SendTransaction tx] =
  match send_transaction w tx with
  | inr sig => [sig]
  | inl _ => []
  end.
Proof. unfold payments_of. cbn. destruct (send_transaction w tx); reflexivity. Qed.

(** Once the key has a record inside its window, every retry goes to the
    short-circuit: no RPC call, no payment, the record stays. *)
Lemma serve_short_circuits cfg receiver to key reqs : forall PAID sig ts,
  Forall (retry_of cfg receiver to key) reqs ->
  PAID !! (receiver, key) = Some (sig, ts) ->
  Forall (fun r => expired (time_sweep (fst r)) ts = false) reqs ->
  payments reqs (snd (serve cfg PAID reqs)) = [] /\
  Forall (fun res => fst res = []) (snd (serve cfg PAID reqs)) /\
  fst (serve cfg PAID reqs) !! (receiver, key) = Some (sig, ts).
Proof.
  induction reqs as [|[w parsed] reqs IH]; intros PAID sig ts Hgood Hrec Hlive.
  - split; [reflexivity|]. split; [constructor|exact Hrec].
  - apply Forall_cons in Hgood as [(body & amount & Hp & Hacc & Hk & Hs) Hgood].
    apply Forall_cons in Hlive as [Hnow Hlive].
    cbn [snd fst] in Hp, Hnow. subst parsed.
    assert (cleanup_paid (time_sweep w) PAID !! (receiver, py_str (idem_key_of body))
            = Some (sig, ts)) as Hhit
      by (rewrite Hs, cleanup_paid_lookup, Hrec, Hnow; reflexivity).
    cbn [serve]. rewrite (reward_send_hit _ _ _ _ _ _ _ _ _ Hacc Hk Hhit).
    rewrite Hs in Hhit.
    destruct (IH _ sig ts Hgood Hhit Hlive) as (Hpay & Hquiet & Hrec').
    destruct (serve cfg _ reqs) as [PAID' results]. cbn [fst snd] in *.
    split; [exact Hpay|]. split; [constructor; [reflexivity|exact Hquiet]|exact Hrec'].
Qed.

(** X12. Retries pay at most once.  A sequence of accepted requests for one
    receiver under truthy keys of one text, none of which arrives after
    the window of an earlier record has passed, handled one after the
    other on a store without record for that key: the RPC node accepts at
    most one transfer over the whole sequence, however often it failed
    before, and the signature of that transfer is the one on record at
    the end. *)
Theorem retries_pay_at_most_once cfg receiver to key reqs : forall PAID,
  Forall (retry_of cfg receiver to key) reqs ->
  within_retention reqs ->
  PAID !! (receiver, key) = None ->
  (length (payments reqs (snd (serve cfg PAID reqs))) <= 1)%nat /\
  (forall sig, sig ∈ payments reqs (snd (serve cfg PAID reqs)) ->
     exists ts, fst (serve cfg PAID reqs) !! (receiver, key) = Some (sig, ts)).
Proof.
  induction reqs as [|[w parsed] reqs IH]; intros PAID Hgood Hwin Hfresh.
  - split; [cbn; lia|]. intros sig []%elem_of_nil.
  - apply Forall_cons in Hgood as [(body & amount & Hp & Hacc & Hk & Hs) Hgood].
    destruct Hwin as [Hlive Hwin]. cbn [snd] in Hp. subst parsed.
    assert (cleanup_paid (time_sweep w) PAID !! (receiver, py_str (idem_key_of body)) = None)
      as Hmiss by (rewrite Hs; apply cleanup_paid_absent, Hfresh).
    cbn [serve]. rewrite (reward_send_miss _ _ _ _ _ _ _ Hacc (fun _ => Hmiss)).
    rewrite Hs in Hmiss.
    destruct (get_latest_blockhash w) as [msg|bh].
    { specialize (IH _ Hgood Hwin Hmiss).
      destruct (serve cfg _ reqs) as [PAID2 results]. exact IH. }
    cbv zeta.
    destruct (send_transaction w (build_tx cfg to (lamports_of amount) bh))
      as [msg|sig] eqn:Hsend.
    { specialize (IH _ Hgood Hwin Hmiss).
      destruct (serve cfg _ reqs) as [PAID2 results].
      cbn [fst snd payments] in IH |- *. rewrite payments_of_sent, Hsend. exact IH. }
    rewrite Hk, Hs.
    destruct (serve_short_circuits cfg receiver to key reqs
                (<[(receiver, key) := (sig, time_record w)]> (cleanup_paid (time_sweep w) PAID))
                sig (time_record w) Hgood (lookup_insert_eq _ _ _) Hlive)
      as (Hpay & _ & Hrec).
    destruct (serve cfg _ reqs) as [PAID2 results].
    cbn [fst snd payments] in Hpay, Hrec |- *.
    rewrite payments_of_sent, Hsend, Hpay.
    split; [cbn; lia|].
    intros sig' [->|[]%elem_of_nil]%elem_of_cons. exists (time_record w). exact Hrec.
Qed.

End Retries.

(** ** The ceiling of 0.5 SOL, in lamports *)

Section LamportsCeiling.

Lemma shr_1_half mrs : 0 <= shr_m mrs -> shr_m (shr_1 mrs) = shr_m mrs / 2.
Proof.
  destruct mrs as [m r s]. cbn [shr_m]. intros Hm. rewrite <- Z.div2_div.
  destruct m as [|[p|p|]|p]; try reflexivity. lia.
Qed.

Lemma pow2_xI p : 2 ^ Zpos p~1 = 2 * 2 ^ Zpos p * 2 ^ Zpos p.
Proof.
  rewrite (Pos2Z.inj_xI p). replace (2 * Zpos p + 1) with (1 + Zpos p + Zpos p) by lia.
  rewrite !Z.pow_add_r by lia. reflexivity.
Qed.

Lemma pow2_xO p : 2 ^ Zpos p~0 = 2 ^ Zpos p * 2 ^ Zpos p.
Proof.
  rewrite (Pos2Z.inj_xO p). replace (2 * Zpos p) with (Zpos p + Zpos p) by lia.
  rewrite Z.pow_add_r by lia. reflexivity.
Qed.

Lemma iter_shr_1_div p : forall mrs,
  0 <= shr_m mrs ->
  shr_m (SpecFloat.iter_pos shr_1 p mrs) = shr_m mrs / 2 ^ Zpos p.
Proof.
  assert (forall mrs, 0 <= shr_m mrs -> 0 <= shr_m mrs / 2) as Hhalf
    by (intros; apply Z.div_pos; lia).
  induction p as [p IH|p IH|]; intros mrs Hm; cbn [SpecFloat.iter_pos].
  - assert (0 <= shr_m (shr_1 mrs)) as H1 by (rewrite shr_1_half by exact Hm; auto).
    assert (0 <= shr_m (SpecFloat.iter_pos shr_1 p (shr_1 mrs))) as H2
      by (rewrite IH by exact H1; apply Z.div_pos; [exact H1|lia]).
    rewrite (IH _ H2), (IH _ H1), (shr_1_half _ Hm).
    assert (0 < 2 ^ Zpos p) as Hp by (apply Z.pow_pos_nonneg; lia).
    rewrite !Z.div_div by lia. rewrite pow2_xI. f_equal. lia.
  - assert (0 <= shr_m (SpecFloat.iter_pos shr_1 p mrs)) as H2
      by (rewrite IH by exact Hm; apply Z.div_pos; [exact Hm|lia]).
    assert (0 < 2 ^ Zpos p) as Hp by (apply Z.pow_pos_nonneg; lia).
    rewrite (IH _ H2), (IH _ Hm). rewrite Z.div_div by lia.
    rewrite pow2_xO. reflexivity.
  - rewrite (shr_1_half _ Hm). reflexivity.
Qed.

(** The shift to the format's exponent divides the mantissa by a power of
    two and raises the exponent by as much. *)
Lemma shr_fexp_div m e l :
  0 <= m ->
  exists k, 0 <= k /\
    shr_m (fst (shr_fexp prec emax m e l)) = m / 2 ^ k /\
    snd (shr_fexp prec emax m e l) = e + k.
Proof.
  intros Hm. unfold shr_fexp, shr.
  assert (shr_m (shr_record_of_loc m l) = m) as Hrec by (destruct l as [|[]]; reflexivity).
  destruct (fexp prec emax (Zdigits2 m + e) - e) as [|p|p].
  - exists 0. cbn [fst snd]. rewrite Hrec, Z.div_1_r. repeat split; lia.
  - exists (Zpos p). cbn [fst snd]. rewrite iter_shr_1_div by (rewrite Hrec; exact Hm).
    rewrite Hrec. repeat split; lia.
  - exists 0. cbn [fst snd]. rewrite Hrec, Z.div_1_r. repeat split; lia.
Qed.

(** A product below 500000000 rounds to a double whose integer part is at
    most 500000000. *)
Lemma rounded_lamports_bound mx ex n :
  Zdigits2 (Zpos mx) <= 106 -> ex <= -76 ->
  Zpos mx < 500000000 * 2 ^ (- ex) ->
  py_int (binary_round_aux prec emax false (Zpos mx) ex loc_Exact) = inr n ->
  n <= 500000000.
Proof.
  intros Hd Hex Hlt. unfold binary_round_aux.
  pose proof (shr_fexp_bounds (Zpos mx) ex loc_Exact ltac:(lia)) as [Hm1 He1].
  destruct (shr_fexp_div (Zpos mx) ex loc_Exact ltac:(lia)) as (k1 & Hk1 & Hdiv1 & Hexp1).
  destruct (shr_fexp prec emax (Zpos mx) ex loc_Exact) as [mrs1 e1].
  cbn [fst snd] in Hm1, He1, Hdiv1, Hexp1.
  set (m2 := round_nearest_even (shr_m mrs1) (loc_of_shr_record mrs1)).
  pose proof (round_nearest_even_bounds (shr_m mrs1) (loc_of_shr_record mrs1)
                ltac:(lia)) as Hm2. fold m2 in Hm2.
  pose proof (shr_fexp_bounds m2 e1 loc_Exact ltac:(lia)) as [Hm3 _].
  destruct (shr_fexp_div m2 e1 loc_Exact ltac:(lia)) as (k2 & Hk2 & Hdiv3 & Hexp3).
  destruct (shr_fexp prec emax m2 e1 loc_Exact) as [mrs3 e3].
  cbn [fst snd] in Hm3, Hdiv3, Hexp3.
  assert (e1 <= -23) as Hneg.
  { rewrite He1. unfold fexp, emin, emax, prec in *. lia. }
  (* j = -e1 is the weight of one lamport in units of the rounded mantissa *)
  set (j := - e1) in *.
  assert (0 < 2 ^ j) as Hpj by (apply Z.pow_pos_nonneg; lia).
  assert (0 < 2 ^ k1) as Hpk1 by (apply Z.pow_pos_nonneg; lia).
  assert (0 < 2 ^ k2) as Hpk2 by (apply Z.pow_pos_nonneg; lia).
  assert (m2 <= 500000000 * 2 ^ j) as Hceil.
  { assert (shr_m mrs1 < 500000000 * 2 ^ j); [|lia].
    rewrite Hdiv1. apply Z.div_lt_upper_bound; [exact Hpk1|].
    replace (- ex) with (k1 + j) in Hlt by lia.
    rewrite Z.pow_add_r in Hlt by lia. lia. }
  pose proof (Z.mul_div_le m2 (2 ^ k2) Hpk2) as Hfloor. rewrite <- Hdiv3 in Hfloor.
  destruct (shr_m mrs3) as [|p|p] eqn:Hm; [intros [= <-]; lia| |lia].
  destruct (e3 <=? emax - prec); [|discriminate].
  cbn [py_int]. intros [= <-].
  destruct (0 <=? e3) eqn:Hsign.
  - apply Z.leb_le in Hsign. rewrite Z.shiftl_mul_pow2 by exact Hsign.
    replace k2 with (e3 + j) in Hfloor, Hpk2 by lia.
    rewrite Z.pow_add_r in Hfloor, Hpk2 by lia.
    assert (0 < 2 ^ e3) as Hpe by (apply Z.pow_pos_nonneg; lia).
    nia.
  - apply Z.leb_gt in Hsign. rewrite Z.shiftr_div_pow2 by lia.
    assert (0 < 2 ^ (- e3)) as Hpe by (apply Z.pow_pos_nonneg; lia).
    assert (Zpos p / 2 ^ (- e3) < 500000001); [|lia].
    apply Z.div_lt_upper_bound; [exact Hpe|].
    replace j with (k2 + - e3) in Hceil, Hpj by lia.
    rewrite Z.pow_add_r in Hceil, Hpj by lia.
    nia.
Qed.

Lemma Zdigits2_gt p : Zpos p < 2 ^ Zdigits2 (Zpos p).
Proof.
  rewrite Zdigits2_log2 by lia.
  pose proof (Z.log2_spec (Zpos p) ltac:(lia)) as [_ H]. exact H.
Qed.

(** On a well-formed double in (0, 0.5] the conversion
    [int(amount_sol * LAMPORTS_PER_SOL)] yields between 0 and 500000000
    lamports. *)
Lemma lamports_in_range a n :
  valid_binary prec emax a = true ->
  flt fzero a = true -> fle a fhalf = true ->
  to_lamports a = inr n -> 0 <= n <= 500000000.
Proof.
  intros Hv H0 H1 Hn.
  split; [apply (lamports_nonneg a n (in_range_passes a H0 H1) Hn)|].
  destruct (in_range_shape a H0 H1) as (m & e & -> & He).
  destruct (Pos.eq_dec m 4503599627370496%positive) as [->|Hm];
    [destruct (Z.eq_dec e (-53)) as [->|He53]|].
  { (* the amount is 0.5 itself *)
    assert (to_lamports fhalf = inr 500000000) as Hhalf by reflexivity.
    unfold fhalf in Hhalf. rewrite Hhalf in Hn. injection Hn as <-. lia. }
  all: unfold to_lamports in Hn; rewrite lamports_per_sol_double in Hn;
    unfold fmul, SFmul in Hn; cbn [xorb] in Hn;
    unfold valid_binary, bounded, canonical_mantissa in Hv;
    apply andb_prop in Hv as [Hc _]; apply Z.eqb_eq in Hc;
    unfold fexp, emin, emax, prec in Hc;
    revert Hn; apply rounded_lamports_bound; [|lia|].
  - (* mantissa 2^52 and an exponent below -53 *)
    apply Z.leb_le. reflexivity.
  - change (Zpos (4503599627370496 * 8388608000000000))
      with (4503599627370496 * (1000000000 * 2 ^ 23)).
    replace (- (e + -23)) with (23 + (- e - 54) + 54) by lia.
    rewrite !Z.pow_add_r by lia.
    assert (0 < 2 ^ (- e - 54)) by (apply Z.pow_pos_nonneg; lia).
    change (2 ^ 54) with 18014398509481984. change (2 ^ 23) with 8388608. nia.
  - (* any other mantissa *)
    pose proof (Zdigits2_mul (Zpos m) 8388608000000000 ltac:(lia) ltac:(lia)) as Hd.
    change (Zdigits2 8388608000000000) with 53 in Hd.
    change (Zdigits2 (Zpos m)) with (Zpos (digits2_pos m)) in Hd.
    rewrite Pos2Z.inj_mul. lia.
  - pose proof (Zdigits2_gt m) as Hlt.
    change (Zdigits2 (Zpos m)) with (Zpos (digits2_pos m)) in Hlt.
    unfold fle, SFleb, fhalf, SFcompare in H1.
    assert (Zpos m < 2 ^ (- e - 1)) as Hm1.
    { revert H1. destruct (Z.compare_spec e (-53)) as [Heq|Hlt'|Hgt]; intros H1; [| |lia].
      - rewrite Heq.
        destruct (Pos.compare_cont Eq m 4503599627370496) eqn:Hcmp; try discriminate H1.
        + apply Pos.compare_eq in Hcmp. contradiction.
        + pose proof (proj1 (Pos.compare_lt_iff m 4503599627370496) Hcmp) as Hl.
          change (2 ^ (- -53 - 1)) with 4503599627370496.
          exact Hl.
      - assert (Zpos (digits2_pos m) <= 53) as Hd53 by lia.
        pose proof (Z.pow_le_mono_r 2 (Zpos (digits2_pos m)) (- e - 1) ltac:(lia) ltac:(lia)).
        lia. }
    rewrite Pos2Z.inj_mul.
    change (Zpos 8388608000000000) with (1000000000 * 2 ^ 23).
    replace (- (e + -23)) with (23 + (- e - 1) + 1) by lia.
    rewrite !Z.pow_add_r by lia.
    assert (0 < 2 ^ (- e - 1)) by (apply Z.pow_pos_nonneg; lia).
    change (2 ^ 23) with 8388608. change (2 ^ 1) with 2. nia.
Qed.

End LamportsCeiling.

Section TransferAmount.
Context `{RT : Runtime}.
Implicit Types (cfg : config) (w : env) (PAID : store).

(** X13. The ceiling holds in lamports.  When every amount that [float()]
    yields is a well-formed double, every transfer the handler sends
    carries at least 0 and at most 500000000 lamports, the lamports of
    0.5 SOL: multiplying by [LAMPORTS_PER_SOL] and truncating never lifts
    an amount of the interval (0, 0.5] over the ceiling. *)
Theorem transfer_amount_within_ceiling cfg w PAID parsed tx :
  (forall body a,
     request_body parsed = inr body ->
     py_float (body_get body "amount_sol" (JFloat (REWARD_SOL_DEFAULT cfg))) = Some a ->
     valid_binary prec emax a = true) ->
  SendTransaction tx ∈ snd (fst (reward_send cfg w PAID parsed)) ->
  0 <= lamports tx <= 500000000.
Proof.
  intros Hvalid. unfold reward_send.
  destruct (request_body parsed) as [e|body] eqn:Hb; [intros []%elem_of_nil|].
  cbv zeta.
  destruct (negb _); [intros []%elem_of_nil|].
  destruct (py_float _) as [a|] eqn:Ha; [|intros []%elem_of_nil].
  destruct (fle a fzero || fgt a fhalf) eqn:Hrange; [intros []%elem_of_nil|].
  destruct (parse_receiver _) as [[receiver_s to]|]; [|intros []%elem_of_nil].
  destruct (if truthy _ then _ else _) as [[sig ts]|]; [intros []%elem_of_nil|].
  destruct (to_lamports a) as [e|n] eqn:Hn; [intros []%elem_of_nil|].
  destruct (get_latest_blockhash w) as [msg|bh].
  { cbn [fst snd]. intros [Heq|[]%elem_of_nil]%elem_of_cons. discriminate Heq. }
  assert (0 <= n <= 500000000) as Hbound.
  { assert (a <> S754_nan) as Hnan.
    { intros ->. unfold to_lamports in Hn. rewrite lamports_per_sol_double in Hn.
      discriminate Hn. }
    destruct (proj1 (range_test_spec a Hnan) Hrange) as [H0 H1].
    exact (lamports_in_range a n (Hvalid body a eq_refl Ha) H0 H1 Hn). }
  assert (SendTransaction tx ∈ [GetLatestBlockhash; SendTransaction (build_tx cfg to n bh)]
          -> 0 <= lamports tx <= 500000000) as Hsent.
  { intros [Heq|[Heq|[]%elem_of_nil]%elem_of_cons]%elem_of_cons; [discriminate Heq|].
    injection Heq as ->. exact Hbound. }
  destruct (send_transaction w _) as [msg|sig]; exact Hsent.
Qed.

End TransferAmount.

Section NoSuccess.
Context `{RT : Runtime}.
Implicit Types (cfg : config) (w : env) (PAID : store).

(** X14. [reward_send] never answers 200.  A request ends in an answer
    400 or 500 or in an exception; and whenever the RPC node has accepted
    its transfer, it ends in the [TypeError] that [jsonify] raises on the
    signature: the payment is made and the caller is not told. *)
Theorem success_is_never_reported cfg w PAID parsed :
  let '(PAID', tr, o) := reward_send cfg w PAID parsed in
  ((exists r, o = Returns r /\ (status r = 400 \/ status r = 500)) \/
   exists e, o = Raises e) /\
  (forall sig, sig ∈ payments_of w tr -> o = Raises TypeError).
Proof.
  unfold reward_send.
  assert (forall code msg, code = 400 \/ code = 500 ->
            ((exists r, error_response code msg = Returns r /\
                        (status r = 400 \/ status r = 500)) \/
             exists e, error_response code msg = Raises e) /\
            (forall sig : Signature, sig ∈ @nil Signature ->
               error_response code msg = Raises TypeError)) as Herr.
  { intros code msg Hcode. split; [left; eexists; split; [reflexivity|exact Hcode]|].
    intros sig []%elem_of_nil. }
  assert (forall e,
            ((exists r, Raises e = Returns r /\ (status r = 400 \/ status r = 500)) \/
             exists e', Raises e = Raises e') /\
            (forall sig : Signature, sig ∈ @nil Signature -> Raises e = Raises TypeError))
    as Hexn.
  { intros e. split; [right; eexists; reflexivity|]. intros sig []%elem_of_nil. }
  destruct (request_body parsed) as [e|body]; [apply Hexn|].
  cbv zeta.
  destruct (negb _); [apply Herr; left; reflexivity|].
  destruct (py_float _) as [a|]; [|apply Herr; left; reflexivity].
  destruct (fle a fzero || fgt a fhalf); [apply Herr; left; reflexivity|].
  destruct (parse_receiver _) as [[receiver_s to]|]; [|apply Herr; left; reflexivity].
  destruct (if truthy _ then _ else _) as [[sig ts]|]; [apply (Hexn TypeError)|].
  destruct (to_lamports a) as [e|n]; [apply Hexn|].
  destruct (get_latest_blockhash w) as [msg|bh]; [apply Herr; right; reflexivity|].
  destruct (send_transaction w _) as [msg|sig] eqn:Hsend.
  - rewrite payments_of_sent, Hsend. apply Herr. right. reflexivity.
  - split; [right; eexists; reflexivity|]. intros; reflexivity.
Qed.

End NoSuccess.

(** * The further properties on the worked deployment *)

(** A JSON list has no [get]; [null] is replaced by the empty dictionary. *)
Lemma body_that_is_no_object_witness :
  @reward_send reference_runtime demo_cfg (demo_env 1000 "sig") demo_store (JList [JInt 1])
  = (@cleanup_paid (float_of_const 1000) demo_store, [], Raises AttributeError) /\
  @reward_send reference_runtime demo_cfg (demo_env 1000 "sig") demo_store JNull
  = (@cleanup_paid (float_of_const 1000) demo_store, [],
     @error_response 400 "Missing receiver_wallet_address").
Proof.
  split.
  - exact (@body_that_is_no_object reference_runtime demo_cfg (demo_env 1000 "sig")
             demo_store (JList [JInt 1]) I).
  - exact (@body_that_is_no_object reference_runtime demo_cfg (demo_env 1000 "sig")
             demo_store JNull I).
Defined.

(** The amount 1 is a float and no NaN, and is not in (0, 0.5]. *)
Lemma amount_validation_witness :
  @py_float reference_runtime
    (body_get demo_body_big "amount_sol"
       (JFloat (@REWARD_SOL_DEFAULT reference_runtime demo_cfg))) = Some fone /\
  flt fzero fone && fle fone fhalf = false /\
  @reward_send reference_runtime demo_cfg (demo_env 1000 "sig") ∅ (JDict demo_body_big)
  = (@cleanup_paid (float_of_const 1000) ∅, [],
     @error_response 400 "amount_sol out of range").
Proof.
  split; [reflexivity|]. split; [reflexivity|].
  refine (proj1 (proj2 (@amount_validation reference_runtime demo_cfg
                          (demo_env 1000 "sig") ∅ (JDict demo_body_big) demo_body_big
                          eq_refl eq_refl) fone eq_refl _) eq_refl).
  discriminate.
Defined.

Lemma omitted_amount_is_default_witness :
  demo_body_default !! "amount_sol" = None /\
  @reward_send reference_runtime demo_cfg (demo_env 1000 "sig-1") ∅ (JDict demo_body_default)
  = @reward_send reference_runtime demo_cfg (demo_env 1000 "sig-1") ∅
      (JDict (<["amount_sol" := JFloat (@REWARD_SOL_DEFAULT reference_runtime demo_cfg)]>
                demo_body_default)).
Proof.
  split; [reflexivity|].
  apply (@omitted_amount_is_default reference_runtime demo_cfg (demo_env 1000 "sig-1") ∅
           demo_body_default).
  reflexivity.
Defined.

(** The worked environment sets neither the URL nor the default reward. *)
Lemma health_reports_environment_witness :
  field "rpc" (@health reference_runtime demo_cfg)
  = Some (JStr (default "https://api.devnet.solana.com" (demo_environ !! "SOLANA_RPC_URL"))) /\
  JFloat <$> @float_of_str reference_runtime
               (default "0.01" (demo_environ !! "REWARD_SOL_DEFAULT"))
  = field "default_reward_sol" (@health reference_runtime demo_cfg) /\
  status_of (@health reference_runtime demo_cfg) = Some 200.
Proof.
  exact (@health_reports_environment reference_runtime demo_environ demo_cfg demo_startup).
Defined.

(** The transfer of the default amount, 0.01 SOL. *)
Lemma health_matches_transfers_witness :
  let tx := @build_tx reference_runtime demo_cfg demo_to 10000000 "blockhash" in
  field "from_wallet" (@health reference_runtime demo_cfg)
  = Some (JStr (@Pubkey_str reference_runtime (from_pubkey tx))) /\
  exists d,
    field "default_reward_sol" (@health reference_runtime demo_cfg) = Some (JFloat d) /\
    to_lamports d = inr (lamports tx).
Proof.
  cbv zeta.
  destruct (@health_matches_transfers reference_runtime demo_cfg (demo_env 1000 "sig-1") ∅
              (JDict demo_body_default)
              (@build_tx reference_runtime demo_cfg demo_to 10000000 "blockhash"))
    as [Hfrom Hamount].
  { assert (snd (fst (@reward_send reference_runtime demo_cfg (demo_env 1000 "sig-1") ∅
                        (JDict demo_body_default)))
            = [GetLatestBlockhash;
               SendTransaction
                 (@build_tx reference_runtime demo_cfg demo_to 10000000 "blockhash")])
      as -> by reflexivity.
    apply list_elem_of_further, list_elem_of_here. }
  split; [exact Hfrom|].
  apply (Hamount demo_body_default); reflexivity.
Defined.

(** A payment that goes through raises in [jsonify]. *)
Lemma handler_raises_in_three_cases_witness :
  let r := @reward_send reference_runtime demo_cfg (demo_env 1000 "sig-1") ∅
             (JDict (demo_body (JStr "abc"))) in
  snd r = Raises TypeError /\
  exists tx sig,
    snd (fst r) = [GetLatestBlockhash; SendTransaction tx] /\
    @send_transaction reference_runtime (demo_env 1000 "sig-1") tx = inr sig.
Proof.
  cbv zeta.
  assert (snd (@reward_send reference_runtime demo_cfg (demo_env 1000 "sig-1") ∅
                 (JDict (demo_body (JStr "abc")))) = Raises TypeError) as Hraise
    by reflexivity.
  split; [exact Hraise|].
  destruct (@handler_raises_in_three_cases reference_runtime demo_cfg
              (demo_env 1000 "sig-1") ∅ (JDict (demo_body (JStr "abc"))) TypeError)
    as [[Hne _]|[[Hne _]|[_ [[Hquiet _]|Hsent]]]];
    [|exact Hraise|discriminate Hne|discriminate Hne| |exact Hsent].
  - intros body a Hb Ha. rewrite request_body_dict in Hb. injection Hb as <-.
    assert (@py_float reference_runtime
              (body_get (demo_body (JStr "abc")) "amount_sol"
                 (JFloat (@REWARD_SOL_DEFAULT reference_runtime demo_cfg)))
            = Some quarter) as Hq by reflexivity.
    rewrite Hq in Ha. injection Ha as <-. reflexivity.
  - assert (snd (fst (@reward_send reference_runtime demo_cfg (demo_env 1000 "sig-1") ∅
                        (JDict (demo_body (JStr "abc")))))
            = [GetLatestBlockhash;
               SendTransaction
                 (@build_tx reference_runtime demo_cfg demo_to 250000000 "blockhash")])
      as Htr by reflexivity.
    rewrite Htr in Hquiet. discriminate Hquiet.
Defined.

(** The RPC node is down: the answer 500 carries its error text. *)
Lemma server_error_means_rpc_failure_witness :
  let r := @reward_send reference_runtime demo_cfg (demo_env_down 1000) demo_store
             (JDict (demo_body (JStr "xyz"))) in
  status_of (snd r) = Some 500 /\
  fst (fst r) = @cleanup_paid (float_of_const 1000) demo_store /\
  exists msg,
    snd r = @error_response 500 msg /\
    ((@get_latest_blockhash reference_runtime (demo_env_down 1000) = inl msg /\
      snd (fst r) = [GetLatestBlockhash]) \/
     (exists bh tx,
        @get_latest_blockhash reference_runtime (demo_env_down 1000) = inr bh /\
        @send_transaction reference_runtime (demo_env_down 1000) tx = inl msg /\
        snd (fst r) = [GetLatestBlockhash; SendTransaction tx])).
Proof.
  cbv zeta.
  pose proof (@server_error_means_rpc_failure reference_runtime demo_cfg
                (demo_env_down 1000) demo_store (JDict (demo_body (JStr "xyz")))) as W.
  destruct (@reward_send reference_runtime demo_cfg (demo_env_down 1000) demo_store
              (JDict (demo_body (JStr "xyz")))) as [[PAID' tr] o] eqn:Hrun.
  cbn [fst snd].
  assert (status_of o = Some 500) as Hs.
  { replace o with (snd (@reward_send reference_runtime demo_cfg (demo_env_down 1000)
                           demo_store (JDict (demo_body (JStr "xyz")))))
      by (rewrite Hrun; reflexivity).
    reflexivity. }
  split; [exact Hs|]. exact (W Hs).
Defined.

Lemma demo_retry now key :
  truthy key = true -> @py_str reference_runtime key = "7" ->
  @retry_of reference_runtime demo_cfg demo_receiver demo_to "7"
    (now, JDict (demo_body key)).
Proof.
  intros Ht Hk. exists (demo_body key), quarter.
  split; [reflexivity|]. split; [apply demo_accepted|]. split; assumption.
Qed.

(** One failure, one payment, one short-circuit. *)
Lemma retries_pay_at_most_once_witness :
  (length (payments demo_retries (snd (@serve reference_runtime demo_cfg ∅ demo_retries)))
   <= 1)%nat /\
  (forall sig,
     sig ∈ payments demo_retries (snd (@serve reference_runtime demo_cfg ∅ demo_retries)) ->
     exists ts,
       fst (@serve reference_runtime demo_cfg ∅ demo_retries) !! (demo_receiver, "7")
       = Some (sig, ts)).
Proof.
  apply (@retries_pay_at_most_once reference_runtime demo_cfg demo_receiver demo_to "7"
           demo_retries ∅).
  - repeat apply Forall_cons_2; try apply Forall_nil_2; apply demo_retry; reflexivity.
  - cbn [within_retention demo_retries].
    repeat split; repeat apply Forall_cons_2; try apply Forall_nil_2; reflexivity.
  - reflexivity.
Defined.

(** A payment of 0.25 SOL carries 250000000 lamports. *)
Lemma transfer_amount_within_ceiling_witness :
  @lamports reference_runtime
    (@build_tx reference_runtime demo_cfg demo_to 250000000 "blockhash") = 250000000 /\
  0 <= @lamports reference_runtime
         (@build_tx reference_runtime demo_cfg demo_to 250000000 "blockhash")
    <= 500000000.
Proof.
  split; [reflexivity|].
  apply (@transfer_amount_within_ceiling reference_runtime demo_cfg
           (demo_env 1000 "sig-1") ∅ (JDict (demo_body (JStr "abc")))).
  - intros body a Hb Ha. rewrite request_body_dict in Hb. injection Hb as <-.
    assert (@py_float reference_runtime
              (body_get (demo_body (JStr "abc")) "amount_sol"
                 (JFloat (@REWARD_SOL_DEFAULT reference_runtime demo_cfg)))
            = Some quarter) as Hq by reflexivity.
    rewrite Hq in Ha. injection Ha as <-. reflexivity.
  - assert (snd (fst (@reward_send reference_runtime demo_cfg (demo_env 1000 "sig-1") ∅
                        (JDict (demo_body (JStr "abc")))))
            = [GetLatestBlockhash;
               SendTransaction
                 (@build_tx reference_runtime demo_cfg demo_to 250000000 "blockhash")])
      as -> by reflexivity.
    apply list_elem_of_further, list_elem_of_here.
Defined.
